(** * asciidocpy: the document model of [asciidocpy/document.py]

    A shallow embedding of the element classes of [document.py] and of their
    [render] methods, followed by the properties of the rendered text.

    Python objects are dynamically typed, and the renderers format, test and
    multiply whatever their fields hold.  The fields are therefore modelled
    as Python values ([PyVal]): [None], booleans, integers and strings, with
    the text conversion ([str], used by f-strings and by [map(str, ...)]),
    the truth test and the operators of [str] that the code uses.  An
    operation that raises in Python returns [Raise] here: [TypeError] for
    an operand of the wrong type, [OverflowError] for a repetition count
    outside the index range of the interpreter (64 bits), [RecursionError]
    for calls nested deeper than the call stack admits.
    Floating point numbers, nested containers used as scalars and
    user-defined classes are outside the model, as are the exhaustion of
    memory and the digit limit that recent interpreters put on the
    conversion of very large integers.

    The leaf elements are values.  The containers are given twice: as a
    tree ([Element], [render]), which is what the object graph is when no
    element is held twice, and as objects in a store ([Store]), where
    [add_section] and [content.append] change the object they are called
    on. *)

From Stdlib Require Import String Ascii List ZArith Lia Bool DecimalString.
From Stdlib Require Import Relations.
Import ListNotations.

Local Open Scope list_scope.
Local Open Scope string_scope.

(** ** Python values *)

Module Py.

(** The line feed and the double quote, which string literals cannot hold. *)
Definition LF : string := String "010"%char EmptyString.
Definition DQ : string := String "034"%char EmptyString.

Inductive PyVal : Type :=
| PyNone
| PyBool (b : bool)
| PyInt (z : Z)
| PyStr (s : string).

Inductive Exn : Type :=
| TypeError
| OverflowError
| RecursionError.

Inductive Result (A : Type) : Type :=
| Ok (a : A)
| Raise (e : Exn).

Arguments Ok {A} a.
Arguments Raise {A} e.

Definition bind {A B : Type} (r : Result A) (k : A -> Result B) : Result B :=
  match r with
  | Ok a => k a
  | Raise e => Raise e
  end.

(** [bool(v)]: the truth test of [if v:] and of [or]. *)
Definition truthy (v : PyVal) : bool :=
  match v with
  | PyNone => false
  | PyBool b => b
  | PyInt z => negb (Z.eqb z 0)
  | PyStr s => negb (String.eqb s "")
  end.

(** [a or b]: the first operand when it is true, the second otherwise. *)
Definition py_or (a b : PyVal) : PyVal :=
  if truthy a then a else b.

(** [str(v)], which is also what [f"{v}"] interpolates. *)
Definition py_str (v : PyVal) : string :=
  match v with
  | PyNone => "None"
  | PyBool true => "True"
  | PyBool false => "False"
  | PyInt z => NilZero.string_of_int (Z.to_int z)
  | PyStr s => s
  end.

(** The counts that a sequence can be repeated by are those of the index
    type of the interpreter ([Py_ssize_t]), 64 bits wide. *)
Definition index_min : Z := - 2 ^ 63.
Definition index_max : Z := 2 ^ 63 - 1.

Definition in_index_range (z : Z) : bool :=
  Z.leb index_min z && Z.leb z index_max.

(** [s * n]: [n] copies of [s], none when [n] is zero or negative; a count
    outside the index range raises [OverflowError].  A boolean counts as
    the integer 0 or 1; an operand of another type raises [TypeError]. *)
Fixpoint str_repeat (s : string) (n : nat) : string :=
  match n with
  | O => ""
  | S k => s ++ str_repeat s k
  end.

Definition str_mul (s : string) (n : PyVal) : Result string :=
  match n with
  | PyInt z =>
      if in_index_range z then Ok (str_repeat s (Z.to_nat z))
      else Raise OverflowError
  | PyBool b => Ok (str_repeat s (if b then 1 else 0)%nat)
  | PyNone | PyStr _ => Raise TypeError
  end.

(** The items of a sequence as strings; [sep.join] raises at the first
    item that is not a [str]. *)
Fixpoint as_strs (items : list PyVal) : Result (list string) :=
  match items with
  | [] => Ok []
  | PyStr s :: rest => bind (as_strs rest) (fun ss => Ok (s :: ss))
  | _ :: _ => Raise TypeError
  end.

(** [sep.join(items)]. *)
Definition str_join (sep : string) (items : list PyVal) : Result string :=
  bind (as_strs items) (fun ss => Ok (String.concat sep ss)).

(** The results of a list comprehension whose body may raise: the first
    exception ends it. *)
Fixpoint sequence {A : Type} (rs : list (Result A)) : Result (list A) :=
  match rs with
  | [] => Ok []
  | r :: rest => bind r (fun a => bind (sequence rest) (fun l => Ok (a :: l)))
  end.

End Py.

Import Py.

Notation "x <- c ;; k" := (bind c (fun x => k))
  (at level 61, c at next level, right associativity).

(** ** The leaf elements

    One function per [render] method; each takes the fields of [self]. *)

Definition Paragraph_render (text : PyVal) : Result PyVal :=
  Ok text.

Definition UnorderedList_render (items : list PyVal) : Result PyVal :=
  Ok (PyStr (String.concat LF (map (fun item => "* " ++ py_str item) items))).

Definition OrderedList_render (items : list PyVal) : Result PyVal :=
  Ok (PyStr (String.concat LF (map (fun item => ". " ++ py_str item) items))).

(** [l.append(x)]. *)
Definition list_append {A : Type} (l : list A) (x : A) : list A :=
  (l ++ [x])%list.

(** A list is true when it is not empty. *)
Definition list_truthy {A : Type} (l : list A) : bool :=
  match l with
  | [] => false
  | _ :: _ => true
  end.

Definition Table_render (header : list PyVal) (rows : list (list PyVal))
  : Result PyVal :=
  header_part <-
    (if list_truthy header
     then joined <- str_join " | " header ;;
          Ok (("|===" ++ LF ++ "| ") ++ joined ++ LF)
     else Ok ("|===" ++ LF)) ;;
  let body :=
    String.concat LF
      (map (fun row => "| " ++ String.concat " | " (map py_str row)) rows) in
  Ok (PyStr (header_part ++ body ++ LF ++ "|===")).

Definition Image_render (src alt_text title width height align : PyVal)
  : Result PyVal :=
  let options : list string := [] in
  let options :=
    if truthy title
    then list_append options ("title=" ++ DQ ++ py_str title ++ DQ)
    else options in
  let options :=
    if truthy width
    then list_append options ("width=" ++ py_str width) else options in
  let options :=
    if truthy height
    then list_append options ("height=" ++ py_str height) else options in
  let options :=
    if truthy align
    then list_append options ("align=" ++ py_str align) else options in
  let options_str := String.concat "," options in
  let image_line := "image::" ++ py_str src ++ "[" ++ py_str alt_text in
  let image_line :=
    if truthy (PyStr options_str)
    then image_line ++ ", " ++ options_str else image_line in
  let image_line := image_line ++ "]" in
  Ok (PyStr image_line).

Definition Blockquote_render (text author source : PyVal) : Result PyVal :=
  let quote := "____" ++ LF ++ py_str text ++ LF ++ "____" in
  let quote :=
    if truthy (py_or author source)
    then
      let attrib_line :=
        "[quote, " ++ py_str author ++ ", " ++ py_str source ++ "]" in
      attrib_line ++ LF ++ quote
    else quote in
  Ok (PyStr quote).

Definition HorizontalLine_render : Result PyVal :=
  Ok (PyStr "----").

Definition Reference_render (key authors title publisher year : PyVal)
  : Result PyVal :=
  Ok (PyStr ("- [[[" ++ py_str key ++ "]]] " ++ py_str authors ++ ". "
             ++ py_str title ++ ". " ++ py_str publisher ++ ". "
             ++ py_str year ++ ".")).

Inductive Leaf : Type :=
| Paragraph (text : PyVal)
| UnorderedList (items : list PyVal)
| OrderedList (items : list PyVal)
| Table (header : list PyVal) (rows : list (list PyVal))
| Image (src alt_text title width height align : PyVal)
| Blockquote (text author source : PyVal)
| HorizontalLine
| Reference (key authors title publisher year : PyVal).

Definition render_leaf (l : Leaf) : Result PyVal :=
  match l with
  | Paragraph text => Paragraph_render text
  | UnorderedList items => UnorderedList_render items
  | OrderedList items => OrderedList_render items
  | Table header rows => Table_render header rows
  | Image src alt_text title width height align =>
      Image_render src alt_text title width height align
  | Blockquote text author source => Blockquote_render text author source
  | HorizontalLine => HorizontalLine_render
  | Reference key authors title publisher year =>
      Reference_render key authors title publisher year
  end.

(** ** The containers, as a tree

    A [Section] and a [Document] own a sequence of elements.  When no
    element is reachable twice the object graph is this tree. *)

#[warning="-register-all"]
Inductive Element : Type :=
| Elem (l : Leaf)
| Section (title level : PyVal) (content : list Element)
| Document (content : list Element).

Coercion Elem : Leaf >-> Element.

(** [Section.render], given what [item.render()] gave for each item. *)
Definition Section_render (title level : PyVal)
  (rendered_items : Result (list PyVal)) : Result PyVal :=
  prefix <- str_mul "=" level ;;
  items <- rendered_items ;;
  joined <- str_join LF (PyStr (prefix ++ " " ++ py_str title) :: items) ;;
  Ok (PyStr joined).

Definition Document_render (rendered_items : Result (list PyVal))
  : Result PyVal :=
  items <- rendered_items ;;
  joined <- str_join LF items ;;
  Ok (PyStr joined).

Fixpoint render (e : Element) : Result PyVal :=
  match e with
  | Elem l => render_leaf l
  | Section title level content =>
      Section_render title level (sequence (map render content))
  | Document content =>
      Document_render (sequence (map render content))
  end.

(** [render] when the call stack admits [limit] nested calls of [render]
    and no more: a call that does not fit raises [RecursionError].  How
    many calls fit is a matter of the interpreter and of its caller. *)
Fixpoint render_within (limit : nat) (e : Element) : Result PyVal :=
  match limit with
  | O => Raise RecursionError
  | S limit' =>
      match e with
      | Elem l => render_leaf l
      | Section title level content =>
          Section_render title level
            (sequence (map (render_within limit') content))
      | Document content =>
          Document_render (sequence (map (render_within limit') content))
      end
  end.

(** How deep the calls of [render] nest on an element. *)
Fixpoint height (e : Element) : nat :=
  match e with
  | Elem _ => 1
  | Section _ _ content => S (fold_right Nat.max O (map height content))
  | Document content => S (fold_right Nat.max O (map height content))
  end.

(** ** Well-typed elements

    The elements whose fields hold what the renderers need: the level of
    every section is an integer of the index range, the header labels of
    every table and the text of every paragraph are strings.  Nothing is
    asked of the other fields, nor of the length of the rows. *)
Definition is_str (v : PyVal) : bool :=
  match v with
  | PyStr _ => true
  | _ => false
  end.

Definition is_int (v : PyVal) : bool :=
  match v with
  | PyInt _ | PyBool _ => true
  | _ => false
  end.




(** ** Lines of a text *)

Definition is_LF (c : ascii) : bool := Ascii.eqb c "010"%char.

Fixpoint newline_free (s : string) : bool :=
  match s with
  | EmptyString => true
  | String c rest => negb (is_LF c) && newline_free rest
  end.

(** The lines of a text: the runs between line feeds; a line feed at the
    very end closes the last line and opens no other. *)
Fixpoint text_lines (s : string) : list string :=
  match s with
  | EmptyString => []
  | String c rest =>
      if is_LF c then "" :: text_lines rest
      else match text_lines rest with
           | [] => [String c ""]
           | line :: more => String c line :: more
           end
  end.

(** What stands between the first and the last line. *)
Definition inner_lines (lines : list string) : list string :=
  removelast (tl lines).

(** How many times [c] is repeated at the start of [s]. *)
Fixpoint leading_run (c : ascii) (s : string) : nat :=
  match s with
  | EmptyString => O
  | String c' rest => if Ascii.eqb c' c then S (leading_run c rest) else O
  end.

(** [s.startswith(p)]. *)
Definition starts_with (p s : string) : bool := String.prefix p s.

(** ** The image line, by its attribute tokens

    The tokens of the attributes that are set, in the order title, width,
    height, align, and the line they give for a separator [sep] between
    tokens. *)
Definition attribute_token (key : string) (quoted : bool) (v : PyVal)
  : list string :=
  if truthy v
  then [key ++ "=" ++ (if quoted then DQ ++ py_str v ++ DQ else py_str v)]
  else [].

Definition Image_tokens (title width height align : PyVal) : list string :=
  (attribute_token "title" true title
   ++ attribute_token "width" false width
   ++ attribute_token "height" false height
   ++ attribute_token "align" false align)%list.

Definition Image_line (sep : string)
  (src alt_text title width height align : PyVal) : string :=
  "image::" ++ py_str src ++ "[" ++ py_str alt_text
  ++ match Image_tokens title width height align with
     | [] => ""
     | tokens => ", " ++ String.concat sep tokens
     end
  ++ "]".

(** The image line as the specification words it: the tokens separated by
    a comma and a space. *)
Definition Image_line_comma_space
  (src alt_text title width height align : PyVal) : string :=
  Image_line ", " src alt_text title width height align.

(** ** The containers, as objects

    [add_section] changes the document it is called on and returns the
    section it has just stored there, so the caller and the document hold
    the same object.  The objects live in a store; a container holds the
    locations of its items. *)

Module Store.

Definition loc : Type := nat.

Inductive Obj : Type :=
| ObjLeaf (l : Leaf)
| ObjSection (title level : PyVal) (content : list loc)
| ObjDocument (content : list loc).

Definition store : Type := list Obj.

Definition lookup (h : store) (l : loc) : option Obj := nth_error h l.

(** A new object takes the next location. *)
Definition alloc (o : Obj) (h : store) : loc * store :=
  (length h, (h ++ [o])%list).

Fixpoint update (l : loc) (o : Obj) (h : store) : store :=
  match h, l with
  | [], _ => []
  | _ :: rest, O => o :: rest
  | x :: rest, S k => x :: update k o rest
  end.

(** [Document()] and [Section(title, level)]: the content starts empty. *)
Definition Document_new (h : store) : loc * store :=
  alloc (ObjDocument []) h.

Definition Section_new (title level : PyVal) (h : store) : loc * store :=
  alloc (ObjSection title level []) h.

(** [self.content.append(item)]; [None] when [self] is no container. *)
Definition content_append (self item : loc) (h : store) : option store :=
  match lookup h self with
  | Some (ObjSection title level content) =>
      Some (update self (ObjSection title level (list_append content item)) h)
  | Some (ObjDocument content) =>
      Some (update self (ObjDocument (list_append content item)) h)
  | _ => None
  end.

(** [Document.add_section(self, title, level)]. *)
Definition add_section (self : loc) (title level : PyVal) (h : store)
  : option (loc * store) :=
  let (section, h) := Section_new title level h in
  match lookup h self with
  | Some (ObjDocument _) =>
      match content_append self section h with
      | Some h => Some (section, h)
      | None => None
      end
  | _ => None
  end.

(** The default of the parameter [level]. *)
Definition default_level : PyVal := PyInt 1.

(** [[item.render() for item in content]]: the items in order, stopping at
    the first that raises; [None] when an item gives no result. *)
Fixpoint render_items (render_item : loc -> option (Result PyVal))
  (content : list loc) : option (Result (list PyVal)) :=
  match content with
  | [] => Some (Ok [])
  | item :: rest =>
      match render_item item with
      | None => None
      | Some (Raise e) => Some (Raise e)
      | Some (Ok v) =>
          match render_items render_item rest with
          | None => None
          | Some r => Some (vs <- r ;; Ok (v :: vs))
          end
      end
  end.

(** [render] on the object at [self], to nesting depth [depth]; [None]
    when the depth does not suffice, as for a section nested in itself. *)
Fixpoint render_at (depth : nat) (h : store) (self : loc)
  : option (Result PyVal) :=
  match depth with
  | O => None
  | S depth' =>
      match lookup h self with
      | None => None
      | Some (ObjLeaf l) => Some (render_leaf l)
      | Some (ObjSection title level content) =>
          match str_mul "=" level with
          | Raise e => Some (Raise e)
          | Ok _ =>
              option_map (Section_render title level)
                (render_items (render_at depth' h) content)
          end
      | Some (ObjDocument content) =>
          option_map Document_render
            (render_items (render_at depth' h) content)
      end
  end.

(** The tree below [self], when the objects reached form one. *)
Fixpoint reify_items (reify_item : loc -> option Element)
  (content : list loc) : option (list Element) :=
  match content with
  | [] => Some []
  | item :: rest =>
      match reify_item item, reify_items reify_item rest with
      | Some e, Some es => Some (e :: es)
      | _, _ => None
      end
  end.

Fixpoint reify (depth : nat) (h : store) (self : loc) : option Element :=
  match depth with
  | O => None
  | S depth' =>
      match lookup h self with
      | None => None
      | Some (ObjLeaf l) => Some (Elem l)
      | Some (ObjSection title level content) =>
          option_map (Section title level)
            (reify_items (reify depth' h) content)
      | Some (ObjDocument content) =>
          option_map Document (reify_items (reify depth' h) content)
      end
  end.

(** A document built the fluent way: [doc = Document()],
    [section = doc.add_section(title)], then a paragraph appended to
    [doc.content]. *)
Definition section_then_paragraph (title text : PyVal) (h : store)
  : option (loc * loc * loc * store) :=
  let (doc, h) := Document_new h in
  match add_section doc title default_level h with
  | None => None
  | Some (section, h) =>
      let (paragraph, h) := alloc (ObjLeaf (Paragraph text)) h in
      match content_append doc paragraph h with
      | None => None
      | Some h => Some (doc, section, paragraph, h)
      end
  end.

End Store.

(** ** Callers

    A caller that adds one section after the other, as in
    [for title, level in sections: doc.add_section(title, level)]; it
    keeps what each call returned. *)
Fixpoint add_sections (doc : Store.loc) (sections : list (PyVal * PyVal))
  (h : Store.store) : option (list Store.loc * Store.store) :=
  match sections with
  | [] => Some ([], h)
  | (title, level) :: rest =>
      match Store.add_section doc title level h with
      | None => None
      | Some (section, h) =>
          match add_sections doc rest h with
          | None => None
          | Some (returned, h) => Some (section :: returned, h)
          end
      end
  end.


(** A row as [Table.render] may meet it in the list of rows: a list of
    cells, or a value that is no sequence ([None], a boolean, an integer),
    which [map(str, row)] cannot iterate over. *)
Inductive Row : Type :=
| RowCells (cells : list PyVal)
| RowNone
| RowBool (b : bool)
| RowInt (z : Z).

(** [iter(row)]. *)
Definition row_iter (row : Row) : Result (list PyVal) :=
  match row with
  | RowCells cells => Ok cells
  | RowNone | RowBool _ | RowInt _ => Raise TypeError
  end.

Definition is_cells (row : Row) : bool :=
  match row with
  | RowCells _ => true
  | _ => false
  end.

(** [Table.render] on such rows: the header part first, then the lines of
    the rows as the join asks for them, in order. *)
Definition Table_render_rows (header : list PyVal) (rows : list Row)
  : Result PyVal :=
  header_part <-
    (if list_truthy header
     then joined <- str_join " | " header ;;
          Ok (("|===" ++ LF ++ "| ") ++ joined ++ LF)
     else Ok ("|===" ++ LF)) ;;
  row_lines <-
    sequence
      (map (fun row =>
              cells <- row_iter row ;;
              Ok ("| " ++ String.concat " | " (map py_str cells))) rows) ;;
  let body := String.concat LF row_lines in
  Ok (PyStr (header_part ++ body ++ LF ++ "|===")).

(** The lines of a table: the marker, the header line when there are
    labels, one line per row or an empty line when there is no row, the
    marker. *)
Definition Table_lines (labels : list string) (rows : list (list PyVal))
  : list string :=
  let header_lines :=
    match labels with
    | [] => []
    | _ :: _ => ["| " ++ String.concat " | " labels]
    end in
  let body_lines :=
    match rows with
    | [] => [""]
    | _ :: _ =>
        map (fun row => "| " ++ String.concat " | " (map py_str row)) rows
    end in
  "|===" :: List.app header_lines (List.app body_lines ["|==="]).

(** [self.content] of an object; a leaf has none. *)
Definition content_of (o : Store.Obj) : list Store.loc :=
  match o with
  | Store.ObjLeaf _ => []
  | Store.ObjSection _ _ content => content
  | Store.ObjDocument content => content
  end.

(** [holds h a b]: the content of the object at [a] has the object at
    [b] among its items. *)
Definition holds (h : Store.store) (a b : Store.loc) : Prop :=
  exists o, Store.lookup h a = Some o /\ In b (content_of o).

(** A store in which every item of every content is an object of the
    store, as it is in Python, where a list holds objects. *)
Definition closed (h : Store.store) : Prop :=
  forall a b, holds h a b -> b < length h.

(** * Properties *)

(** ** Strings and lines *)

Lemma append_assoc (a b c : string) : (a ++ b) ++ c = a ++ b ++ c.
Proof.
  induction a as [|x a IH]; simpl.
  - reflexivity.
  - now rewrite IH.
Qed.

Lemma append_empty_r (a : string) : a ++ "" = a.
Proof.
  induction a as [|x a IH]; simpl; [reflexivity | now rewrite IH].
Qed.

(** Both sides of an equation of texts, appended to the right. *)
Ltac string_norm :=
  repeat (progress (cbn; rewrite ?append_assoc, ?append_empty_r)).

Lemma concat_cons2 (sep x y : string) (rest : list string) :
  String.concat sep (x :: y :: rest)
  = x ++ sep ++ String.concat sep (y :: rest).
Proof. reflexivity. Qed.

Lemma prefix_append (p rest : string) : String.prefix p (p ++ rest) = true.
Proof.
  induction p as [|c p IH]; simpl.
  - now destruct rest.
  - destruct (ascii_dec c c) as [_|ne]; [exact IH | now elim ne].
Qed.

Lemma newline_free_append (a b : string) :
  newline_free (a ++ b) = newline_free a && newline_free b.
Proof.
  induction a as [|c a IH]; simpl.
  - reflexivity.
  - now rewrite IH, andb_assoc.
Qed.

Example text_lines_examples :
  text_lines "" = []
  /\ text_lines "a" = ["a"]
  /\ text_lines ("a" ++ LF) = ["a"]
  /\ text_lines ("a" ++ LF ++ LF ++ "b") = ["a"; ""; "b"]
  /\ text_lines (LF ++ "b") = [""; "b"].
Proof. repeat split. Qed.

(** A line followed by a line feed is the first line of the text. *)
Lemma text_lines_cons (line rest : string) :
  newline_free line = true ->
  text_lines (line ++ LF ++ rest) = line :: text_lines rest.
Proof.
  induction line as [|c line IH]; intros Hfree.
  - reflexivity.
  - cbn [newline_free] in Hfree.
    apply andb_prop in Hfree as [Hc Hline].
    apply negb_true_iff in Hc.
    change (text_lines (String c (line ++ LF ++ rest))
            = String c line :: text_lines rest).
    cbn [text_lines]. rewrite Hc.
    now rewrite (IH Hline).
Qed.

Lemma text_lines_single (line : string) :
  newline_free line = true -> line <> "" -> text_lines line = [line].
Proof.
  induction line as [|c line IH]; simpl; intros Hfree Hne.
  - now elim Hne.
  - apply andb_prop in Hfree as [Hc Hline].
    apply negb_true_iff in Hc. rewrite Hc.
    destruct line as [|d line].
    + reflexivity.
    + rewrite (IH Hline); [reflexivity | discriminate].
Qed.

(** Lines without a line feed, none of them empty, are the lines of their
    join. *)
Lemma text_lines_concat (lines : list string) :
  Forall (fun line => newline_free line = true /\ line <> "") lines ->
  text_lines (String.concat LF lines) = lines.
Proof.
  induction 1 as [|line rest [Hfree Hne] Hrest IH].
  - reflexivity.
  - destruct rest as [|next rest].
    + now apply text_lines_single.
    + rewrite concat_cons2, (text_lines_cons _ _ Hfree). now rewrite IH.
Qed.

Lemma leading_run_repeat (c d : ascii) (n : nat) (rest : string) :
  d <> c ->
  leading_run c (str_repeat (String c "") n ++ String d rest) = n.
Proof.
  intros Hd. induction n as [|n IH]; simpl.
  - destruct (Ascii.eqb_spec d c) as [e|_]; [now elim Hd | reflexivity].
  - rewrite Ascii.eqb_refl. now rewrite IH.
Qed.

(** ** Image *)

(** C1, as amended: [Image.render] gives [image::<src>[<alt_text>], then,
    when an attribute among title, width, height, align is set, a comma and
    a space and the tokens [key=value] of the attributes that are set, in
    that order and separated by a comma alone (the title's value between
    double quotes), then the closing bracket; with none set the line is
    [image::<src>[<alt_text>]]. *)
Theorem Image_render_line (src alt_text title width height align : PyVal) :
  Image_render src alt_text title width height align
  = Ok (PyStr (Image_line "," src alt_text title width height align))
  /\ Image_render src alt_text PyNone PyNone PyNone PyNone
     = Ok (PyStr ("image::" ++ py_str src ++ "[" ++ py_str alt_text ++ "]")).
Proof.
  split.
  - unfold Image_render, Image_line, Image_tokens, attribute_token,
      list_append.
    destruct (truthy title), (truthy width), (truthy height), (truthy align);
      string_norm; reflexivity.
  - unfold Image_render. string_norm. reflexivity.
Qed.

(** C1, as stated, fails: with a title and a width the two tokens are
    separated by a comma without a space. *)
Lemma Image_render_not_comma_space :
  Image_render (PyStr "a.png") (PyStr "A") (PyStr "T") (PyInt 100)
    PyNone PyNone
  = Ok (PyStr ("image::a.png[A, title=" ++ DQ ++ "T" ++ DQ ++ ",width=100]"))
  /\ Image_render (PyStr "a.png") (PyStr "A") (PyStr "T") (PyInt 100)
       PyNone PyNone
     <> Ok (PyStr (Image_line_comma_space (PyStr "a.png") (PyStr "A")
                     (PyStr "T") (PyInt 100) PyNone PyNone)).
Proof.
  split; [reflexivity | vm_compute; discriminate].
Qed.

(** C10: an attribute whose value is false ([None], [0], [False], the empty
    string) is left out, as if it had not been given: it gives no token,
    the image renders as with [None] in its place, and the rendered line is
    the one made of the tokens of the other attributes, those that are
    true; when all four are false the line is [image::<src>[<alt_text>]]. *)
Theorem Image_render_falsy_attribute
  (src alt_text title width height align v : PyVal) :
  truthy v = false ->
  Image_tokens v width height align = Image_tokens PyNone width height align
  /\ Image_render src alt_text v width height align
     = Image_render src alt_text PyNone width height align
  /\ Image_render src alt_text title v height align
     = Image_render src alt_text title PyNone height align
  /\ Image_render src alt_text title width v align
     = Image_render src alt_text title width PyNone align
  /\ Image_render src alt_text title width height v
     = Image_render src alt_text title width height PyNone
  /\ (forall key quoted, attribute_token key quoted v = [])
  /\ Image_render src alt_text v width height align
     = Ok (PyStr (Image_line "," src alt_text PyNone width height align))
  /\ Image_render src alt_text title v height align
     = Ok (PyStr (Image_line "," src alt_text title PyNone height align))
  /\ Image_render src alt_text title width v align
     = Ok (PyStr (Image_line "," src alt_text title width PyNone align))
  /\ Image_render src alt_text title width height v
     = Ok (PyStr (Image_line "," src alt_text title width height PyNone))
  /\ Image_render src alt_text v v v v
     = Ok (PyStr ("image::" ++ py_str src ++ "[" ++ py_str alt_text ++ "]")).
Proof.
  intros Hv.
  unfold Image_line, Image_tokens, attribute_token, Image_render,
    list_append.
  rewrite Hv. cbn [truthy].
  repeat apply conj; try reflexivity.
  - destruct (truthy width), (truthy height), (truthy align);
      string_norm; reflexivity.
  - destruct (truthy title), (truthy height), (truthy align);
      string_norm; reflexivity.
  - destruct (truthy title), (truthy width), (truthy align);
      string_norm; reflexivity.
  - destruct (truthy title), (truthy width), (truthy height);
      string_norm; reflexivity.
  - string_norm. reflexivity.
Qed.

Lemma Image_render_falsy_attribute_witness :
  Image_render (PyStr "a.png") (PyStr "A") (PyStr "") (PyInt 40)
    (PyInt 0) PyNone
  = Ok (PyStr "image::a.png[A, width=40]")
  /\ Image_render (PyStr "a.png") (PyStr "A") (PyInt 0) (PyInt 0) (PyInt 0)
       (PyInt 0)
     = Ok (PyStr "image::a.png[A]").
Proof.
  destruct (Image_render_falsy_attribute (PyStr "a.png") (PyStr "A")
              (PyStr "") (PyInt 40) (PyInt 0) PyNone (PyInt 0) eq_refl)
    as (_ & _ & _ & Hheight & _ & _ & _ & _ & _ & _ & Hall).
  destruct (Image_render_falsy_attribute (PyStr "a.png") (PyStr "A")
              (PyStr "") (PyInt 40) PyNone PyNone (PyStr "") eq_refl)
    as (_ & _ & _ & _ & _ & _ & Htitle & _).
  split; [|exact Hall].
  rewrite Hheight. exact Htitle.
Defined.

(** ** Blockquote *)

(** C4: without an author and without a source the quote is the text
    between two lines of four underscores; when either is set, the line
    [[quote, <author>, <source>]] comes first, with both values in their
    places whichever of them is set. *)
Theorem Blockquote_render_text (text author source : PyVal) :
  let block := "____" ++ LF ++ py_str text ++ LF ++ "____" in
  Blockquote_render text author source
  = Ok (PyStr (if truthy author || truthy source
               then "[quote, " ++ py_str author ++ ", " ++ py_str source
                    ++ "]" ++ LF ++ block
               else block)).
Proof.
  unfold Blockquote_render, py_or.
  destruct (truthy author) eqn:Ha; cbn [orb].
  - rewrite Ha. now rewrite !append_assoc.
  - destruct (truthy source); [now rewrite !append_assoc | reflexivity].
Qed.

(** ** Reference *)

(** C7: the line of a reference, and the example of the specification. *)
Theorem Reference_render_line :
  (forall key authors title publisher year : string,
      Reference_render (PyStr key) (PyStr authors) (PyStr title)
        (PyStr publisher) (PyStr year)
      = Ok (PyStr ("- [[[" ++ key ++ "]]] " ++ authors ++ ". " ++ title
                   ++ ". " ++ publisher ++ ". " ++ year ++ ".")))
  /\ (forall key authors title publisher year : PyVal,
      Reference_render key authors title publisher year
      = Ok (PyStr ("- [[[" ++ py_str key ++ "]]] " ++ py_str authors ++ ". "
                   ++ py_str title ++ ". " ++ py_str publisher ++ ". "
                   ++ py_str year ++ ".")))
  /\ Reference_render (PyStr "ref1") (PyStr "Doe, J") (PyStr "A Study")
       (PyStr "ACM") (PyStr "2020")
     = Ok (PyStr "- [[[ref1]]] Doe, J. A Study. ACM. 2020.")
  /\ Reference_render (PyStr "ref1") (PyStr "Doe, J") (PyStr "A Study")
       (PyStr "ACM") (PyInt 2020)
     = Ok (PyStr "- [[[ref1]]] Doe, J. A Study. ACM. 2020.").
Proof.
  repeat split; reflexivity.
Qed.

(** ** Lists *)

Lemma Forall_map_bullet (bullet : string) (items : list PyVal) :
  Forall (fun line => starts_with bullet line = true)
    (map (fun item => bullet ++ py_str item) items).
Proof.
  induction items as [|item items IH]; constructor.
  - apply prefix_append.
  - exact IH.
Qed.

Lemma bullet_lines_free (c : ascii) (items : list PyVal) :
  is_LF c = false ->
  forallb newline_free (map py_str items) = true ->
  Forall (fun line => newline_free line = true /\ line <> "")
    (map (fun item => String c " " ++ py_str item) items).
Proof.
  intros Hc. induction items as [|item items IH]; cbn [map forallb].
  - constructor.
  - intros H. apply andb_prop in H as [Hitem Hitems].
    constructor; [|now apply IH].
    split; [|discriminate].
    cbn. now rewrite Hc, Hitem.
Qed.

(** C3, as amended: a list renders to the strings bullet-and-text, one
    per item ([* ] for an unordered list, [. ] for an ordered one, then the
    text of the item), in the order of the items, joined by line feeds with
    none after the last.  When no item has a line feed in its text, these
    are the lines of the rendered text: as many as there are items, each
    starting with the bullet. *)
Theorem list_render_lines (items : list PyVal) :
  let unordered := map (fun item => "* " ++ py_str item) items in
  let ordered := map (fun item => ". " ++ py_str item) items in
  UnorderedList_render items = Ok (PyStr (String.concat LF unordered))
  /\ OrderedList_render items = Ok (PyStr (String.concat LF ordered))
  /\ length unordered = length items
  /\ length ordered = length items
  /\ Forall (fun line => starts_with "* " line = true) unordered
  /\ Forall (fun line => starts_with ". " line = true) ordered
  /\ (forallb newline_free (map py_str items) = true ->
      text_lines (String.concat LF unordered) = unordered
      /\ text_lines (String.concat LF ordered) = ordered).
Proof.
  cbv zeta. repeat split.
  - apply length_map.
  - apply length_map.
  - apply Forall_map_bullet.
  - apply Forall_map_bullet.
  - apply text_lines_concat. now apply bullet_lines_free.
  - apply text_lines_concat. now apply bullet_lines_free.
Qed.

Lemma list_render_lines_witness :
  UnorderedList_render [PyStr "tea"; PyInt 2; PyNone]
  = Ok (PyStr ("* tea" ++ LF ++ "* 2" ++ LF ++ "* None"))
  /\ text_lines ("* tea" ++ LF ++ "* 2" ++ LF ++ "* None")
     = ["* tea"; "* 2"; "* None"]
  /\ text_lines (". tea" ++ LF ++ ". 2" ++ LF ++ ". None")
     = [". tea"; ". 2"; ". None"].
Proof.
  destruct (list_render_lines [PyStr "tea"; PyInt 2; PyNone])
    as (Hu & _ & _ & _ & _ & _ & Hlines).
  destruct (Hlines eq_refl) as [Hul Hol].
  split; [exact Hu | split; [exact Hul | exact Hol]].
Defined.

(** C3, as stated, fails: an item whose text holds a line feed takes two
    lines, and the second does not start with the bullet. *)
Lemma list_render_item_with_line_feed :
  exists text,
    UnorderedList_render [PyStr ("a" ++ LF ++ "b")] = Ok (PyStr text)
    /\ text_lines text = ["* a"; "b"]
    /\ length (text_lines text) <> length [PyStr ("a" ++ LF ++ "b")]
    /\ ~ Forall (fun line => starts_with "* " line = true) (text_lines text).
Proof.
  eexists. split; [reflexivity|]. split; [reflexivity|]. split.
  - cbn. discriminate.
  - cbn. intros Hall. inversion Hall as [|? ? _ Hrest]; subst.
    inversion Hrest as [|? ? Hb _]; subst. discriminate Hb.
Qed.

(** ** Table *)

Lemma as_strs_map_PyStr (labels : list string) :
  as_strs (map PyStr labels) = Ok labels.
Proof.
  induction labels as [|label labels IH]; cbn.
  - reflexivity.
  - now rewrite IH.
Qed.

Lemma str_join_map_PyStr (sep : string) (labels : list string) :
  str_join sep (map PyStr labels) = Ok (String.concat sep labels).
Proof.
  unfold str_join. now rewrite as_strs_map_PyStr.
Qed.

(** C5: the table without header and without rows is [|===], an empty
    line, [|===]; with a header and no rows the two markers are still there,
    the body between them empty. *)
Theorem Table_render_no_rows :
  Table_render [] [] = Ok (PyStr ("|===" ++ LF ++ LF ++ "|==="))
  /\ forall labels : list string,
      Table_render (map PyStr labels) []
      = Ok (PyStr (match labels with
                   | [] => "|===" ++ LF
                   | _ :: _ =>
                       "|===" ++ LF ++ "| " ++ String.concat " | " labels
                       ++ LF
                   end ++ "" ++ LF ++ "|===")).
Proof.
  split; [reflexivity|].
  intros [|label labels]; [reflexivity|].
  unfold Table_render. cbn [list_truthy map].
  change (PyStr label :: map PyStr labels) with (map PyStr (label :: labels)).
  rewrite str_join_map_PyStr. reflexivity.
Qed.

(** C2, as amended: a table with a header and one row renders four lines:
    [|===], the header line, the line of the row, [|===]; between the two
    markers there are two lines, the header line first. *)
Theorem Table_render_one_row
  (label : string) (labels : list string) (row : list PyVal) :
  let header_line := "| " ++ String.concat " | " (label :: labels) in
  let row_line := "| " ++ String.concat " | " (map py_str row) in
  let text :=
    "|===" ++ LF ++ header_line ++ LF ++ row_line ++ LF ++ "|===" in
  Table_render (map PyStr (label :: labels)) [row] = Ok (PyStr text)
  /\ (newline_free header_line = true ->
      newline_free row_line = true ->
      text_lines text = ["|==="; header_line; row_line; "|==="]
      /\ inner_lines (text_lines text) = [header_line; row_line]).
Proof.
  cbv zeta. split.
  - unfold Table_render. cbn [list_truthy map].
    change (PyStr label :: map PyStr labels)
      with (map PyStr (label :: labels)).
    rewrite str_join_map_PyStr.
    generalize (String.concat " | " (label :: labels))
      (String.concat " | " (map py_str row)).
    intros header_text row_text. string_norm. reflexivity.
  - intros Hheader Hrow.
    assert (text_lines
              ("|===" ++ LF ++ ("| " ++ String.concat " | " (label :: labels))
               ++ LF ++ ("| " ++ String.concat " | " (map py_str row))
               ++ LF ++ "|===")
            = ["|==="; "| " ++ String.concat " | " (label :: labels);
               "| " ++ String.concat " | " (map py_str row); "|==="])
      as Hlines.
    { rewrite (text_lines_cons "|===") by reflexivity.
      rewrite (text_lines_cons _ _ Hheader).
      rewrite (text_lines_cons _ _ Hrow).
      reflexivity. }
    rewrite Hlines. split; reflexivity.
Qed.

Lemma Table_render_one_row_witness :
  Table_render [PyStr "a"; PyStr "b"] [[PyInt 1; PyNone]]
  = Ok (PyStr ("|===" ++ LF ++ "| a | b" ++ LF ++ "| 1 | None" ++ LF
               ++ "|==="))
  /\ inner_lines
       (text_lines ("|===" ++ LF ++ "| a | b" ++ LF ++ "| 1 | None" ++ LF
                    ++ "|==="))
     = ["| a | b"; "| 1 | None"].
Proof.
  destruct (Table_render_one_row "a" ["b"] [PyInt 1; PyNone])
    as [Hrender Hlines].
  destruct (Hlines eq_refl eq_refl) as [_ Hinner].
  split; [exact Hrender | exact Hinner].
Defined.

(** C2, as stated, fails: between the markers there are two lines, not
    three. *)
Lemma Table_render_not_three_lines :
  exists text,
    Table_render [PyStr "a"] [[PyStr "1"]] = Ok (PyStr text)
    /\ text_lines text = ["|==="; "| a"; "| 1"; "|==="]
    /\ length (inner_lines (text_lines text)) <> 3%nat.
Proof.
  eexists. split; [reflexivity|]. split; [reflexivity|].
  cbn. discriminate.
Qed.

(** ** Section and Document, as trees *)

Lemma Element_nested_ind (P : Element -> Prop)
  (HElem : forall l, P (Elem l))
  (HSection : forall title level content,
      Forall P content -> P (Section title level content))
  (HDocument : forall content, Forall P content -> P (Document content)) :
  forall e, P e.
Proof.
  fix IH 1. intros [l | title level content | content].
  - apply HElem.
  - apply HSection.
    induction content as [|item content IHc]; constructor;
      [apply IH | exact IHc].
  - apply HDocument.
    induction content as [|item content IHc]; constructor;
      [apply IH | exact IHc].
Qed.

(** Items that render to texts give the list of these texts. *)
Lemma sequence_render_texts (content : list Element) (texts : list string) :
  Forall2 (fun item text => render item = Ok (PyStr text)) content texts ->
  sequence (map render content) = Ok (map PyStr texts).
Proof.
  induction 1 as [|item text content texts Hitem _ IH]; cbn [map sequence].
  - reflexivity.
  - now rewrite Hitem, IH.
Qed.

Lemma starts_with_concat (line : string) (rest : list string) :
  starts_with line (String.concat LF (line :: rest)) = true.
Proof.
  unfold starts_with. destruct rest as [|next rest].
  - cbn [String.concat].
    rewrite <- (append_empty_r line) at 2. apply prefix_append.
  - rewrite concat_cons2. apply prefix_append.
Qed.

Lemma leading_run_heading (n : nat) (title : string) (rest : list string) :
  leading_run "="
    (String.concat LF ((str_repeat "=" n ++ " " ++ title) :: rest)) = n.
Proof.
  destruct rest as [|next rest].
  - cbn [String.concat].
    change (" " ++ title) with (String " " title).
    apply leading_run_repeat. discriminate.
  - rewrite concat_cons2, append_assoc.
    change ((" " ++ title) ++ LF ++ String.concat LF (next :: rest))
      with (String " " (title ++ LF ++ String.concat LF (next :: rest))).
    apply leading_run_repeat. discriminate.
Qed.

Lemma in_index_range_iff (z : Z) :
  in_index_range z = true <-> (index_min <= z <= index_max)%Z.
Proof.
  unfold in_index_range. rewrite andb_true_iff, !Z.leb_le. reflexivity.
Qed.

Lemma index_range_bounds : (index_min < 0 /\ 1 < index_max)%Z.
Proof. split; reflexivity. Qed.

Lemma str_mul_in_range (s : string) (n : Z) :
  (index_min <= n <= index_max)%Z ->
  str_mul s (PyInt n) = Ok (str_repeat s (Z.to_nat n)).
Proof.
  intros Hn. cbn [str_mul]. now rewrite (proj2 (in_index_range_iff n) Hn).
Qed.

Lemma str_mul_out_of_range (s : string) (n : Z) :
  (n < index_min \/ index_max < n)%Z ->
  str_mul s (PyInt n) = Raise OverflowError.
Proof.
  intros Hn. cbn [str_mul].
  destruct (in_index_range n) eqn:Hin; [|reflexivity].
  apply in_index_range_iff in Hin. lia.
Qed.

(** C6, as amended: a section of level [n], from 1 to the greatest index
    of the interpreter (2^63 - 1), renders its heading, [n] times [=], a
    space and the title, then the text of each item of its content, all
    joined by line feeds; the text starts with exactly [n] markers. *)
Theorem Section_render_heading
  (title : PyVal) (n : Z) (content : list Element) (texts : list string) :
  (1 <= n <= index_max)%Z ->
  Forall2 (fun item text => render item = Ok (PyStr text)) content texts ->
  let heading := str_repeat "=" (Z.to_nat n) ++ " " ++ py_str title in
  let text := String.concat LF (heading :: texts) in
  render (Section title (PyInt n) content) = Ok (PyStr text)
  /\ starts_with heading text = true
  /\ Z.of_nat (leading_run "=" text) = n
  /\ Z.of_nat (String.length (str_repeat "=" (Z.to_nat n))) = n.
Proof.
  intros Hn Hitems. cbv zeta. repeat apply conj.
  - cbn [render]. unfold Section_render.
    rewrite str_mul_in_range by (pose proof index_range_bounds; lia).
    cbn [bind].
    rewrite (sequence_render_texts _ _ Hitems). cbn [bind].
    change (PyStr ?h :: map PyStr texts) with (map PyStr (h :: texts)).
    now rewrite str_join_map_PyStr.
  - apply starts_with_concat.
  - rewrite leading_run_heading. lia.
  - rewrite <- (Z2Nat.id n) at 2 by lia. f_equal.
    induction (Z.to_nat n) as [|k IH]; cbn; [reflexivity | now rewrite IH].
Qed.

Lemma Section_render_heading_witness :
  render (Section (PyStr "Intro") (PyInt 2)
            [Elem (Paragraph (PyStr "Hello."));
             Section (PyStr "Sub") (PyInt 3) []])
  = Ok (PyStr ("== Intro" ++ LF ++ "Hello." ++ LF ++ "=== Sub"))
  /\ Z.of_nat (leading_run "="
                 ("== Intro" ++ LF ++ "Hello." ++ LF ++ "=== Sub")) = 2%Z.
Proof.
  destruct (Section_render_heading (PyStr "Intro") 2
              [Elem (Paragraph (PyStr "Hello."));
               Section (PyStr "Sub") (PyInt 3) []]
              ["Hello."; "=== Sub"] ltac:(split; [lia | discriminate])
              ltac:(repeat constructor))
    as (Hrender & _ & Hrun & _).
  split; [exact Hrender | exact Hrun].
Defined.

(** C6, as stated, fails: a level of 2^63 is no count that [=] can be
    repeated by, and the section raises [OverflowError]. *)
Lemma Section_render_level_overflow :
  render (Section (PyStr "T") (PyInt (2 ^ 63)) []) = Raise OverflowError
  /\ ~ (forall (title : PyVal) (n : Z), (1 <= n)%Z ->
         exists text, render (Section title (PyInt n) []) = Ok (PyStr text)).
Proof.
  split; [reflexivity|].
  intros Hall. destruct (Hall (PyStr "T") (2 ^ 63)%Z) as [text Htext].
  - discriminate.
  - discriminate Htext.
Qed.

(** The text of a document is the join of the texts of its items. *)
Lemma Document_render_join (content : list Element) (texts : list string) :
  Forall2 (fun item text => render item = Ok (PyStr text)) content texts ->
  render (Document content) = Ok (PyStr (String.concat LF texts)).
Proof.
  intros Hitems. cbn [render]. unfold Document_render.
  rewrite (sequence_render_texts _ _ Hitems). cbn [bind].
  now rewrite str_join_map_PyStr.
Qed.

(** ** When rendering gives a text *)

Lemma as_strs_cases (items : list PyVal) :
  (exists texts, items = map PyStr texts /\ forallb is_str items = true)
  \/ (as_strs items = Raise TypeError /\ forallb is_str items = false).
Proof.
  induction items as [|item items [(texts & -> & Hall) | [Hraise Hall]]].
  - left. now exists [].
  - destruct item as [| b | z | s]; try (right; split; reflexivity).
    left. exists (s :: texts). split; [reflexivity | exact Hall].
  - right. destruct item as [| b | z | s]; try (split; reflexivity).
    cbn [as_strs forallb is_str andb]. rewrite Hraise, Hall.
    split; reflexivity.
Qed.







Lemma height_item_le (item : Element) (content : list Element) :
  In item content ->
  height item <= fold_right Nat.max O (map height content).
Proof.
  induction content as [|first content IH]; cbn [In map fold_right];
    [intros []|].
  intros [-> | Hin]; [lia | specialize (IH Hin); lia].
Qed.

(** Where the call stack admits the nesting of the element, rendering is
    what it is on a stack without limit. *)
Lemma render_within_height (e : Element) :
  forall limit, height e <= limit -> render_within limit e = render e.
Proof.
  induction e as [l | title level content IH | content IH]
    using Element_nested_ind; intros [|limit] Hlimit; cbn [height] in Hlimit;
    try lia; cbn [render_within render]; [reflexivity | |].
  all: replace (map (render_within limit) content) with (map render content);
    [reflexivity|].
  all: apply map_ext_in; intros item Hin; symmetry;
    apply (proj1 (Forall_forall _ _) IH item Hin);
    pose proof (height_item_le item content Hin); lia.
Qed.




(** ** Section and Document, as objects *)

Import Store.

Lemma lookup_alloc_new (o : Obj) (h : store) :
  lookup (h ++ [o])%list (length h) = Some o.
Proof.
  unfold lookup. rewrite nth_error_app2 by lia.
  now rewrite Nat.sub_diag.
Qed.

Lemma lookup_alloc_old (o : Obj) (h : store) (l : loc) :
  l < length h -> lookup (h ++ [o])%list l = lookup h l.
Proof.
  intros Hl. unfold lookup. now rewrite nth_error_app1.
Qed.

Lemma length_update (l : loc) (o : Obj) (h : store) :
  length (update l o h) = length h.
Proof.
  revert l. induction h as [|x h IH]; intros [|l]; cbn; auto.
Qed.

Lemma lookup_update_same (l : loc) (o : Obj) (h : store) :
  l < length h -> lookup (update l o h) l = Some o.
Proof.
  revert l. induction h as [|x h IH]; intros [|l] Hl; cbn in *; try lia.
  - reflexivity.
  - apply IH. lia.
Qed.

Lemma lookup_update_other (l l' : loc) (o : Obj) (h : store) :
  l' <> l -> lookup (update l o h) l' = lookup h l'.
Proof.
  revert l l'. induction h as [|x h IH]; intros [|l] [|l'] Hne; cbn;
    try reflexivity.
  - now elim Hne.
  - apply IH. congruence.
Qed.

Lemma lookup_Some_lt (h : store) (l : loc) (o : Obj) :
  lookup h l = Some o -> l < length h.
Proof.
  intros Hl. apply nth_error_Some. unfold lookup in Hl. congruence.
Qed.

(** What [content.append] does to a document: its content grows by the
    item, at the end; no other object changes. *)
Lemma content_append_Document
  (h : store) (self item : loc) (content : list loc) :
  lookup h self = Some (ObjDocument content) ->
  exists h',
    content_append self item h = Some h'
    /\ length h' = length h
    /\ lookup h' self = Some (ObjDocument (content ++ [item])%list)
    /\ forall l, l <> self -> lookup h' l = lookup h l.
Proof.
  intros Hself. unfold content_append. rewrite Hself.
  eexists. split; [reflexivity|]. split; [apply length_update|]. split.
  - apply lookup_update_same. eapply lookup_Some_lt, Hself.
  - intros l Hl. now apply lookup_update_other.
Qed.

Lemma content_append_Section
  (h : store) (self item : loc) (title level : PyVal) (content : list loc) :
  lookup h self = Some (ObjSection title level content) ->
  exists h',
    content_append self item h = Some h'
    /\ length h' = length h
    /\ lookup h' self = Some (ObjSection title level (content ++ [item])%list)
    /\ forall l, l <> self -> lookup h' l = lookup h l.
Proof.
  intros Hself. unfold content_append. rewrite Hself.
  eexists. split; [reflexivity|]. split; [apply length_update|]. split.
  - apply lookup_update_same. eapply lookup_Some_lt, Hself.
  - intros l Hl. now apply lookup_update_other.
Qed.

(** What [add_section] does: the new section, empty, takes the next
    location, which is returned and appended to the content of the
    document; no other object changes. *)
Lemma add_section_effect
  (h : store) (self : loc) (content : list loc) (title level : PyVal) :
  lookup h self = Some (ObjDocument content) ->
  exists h',
    add_section self title level h = Some (length h, h')
    /\ length h' = S (length h)
    /\ lookup h' (length h) = Some (ObjSection title level [])
    /\ lookup h' self = Some (ObjDocument (content ++ [length h])%list)
    /\ forall l, l <> self -> l < length h -> lookup h' l = lookup h l.
Proof.
  intros Hself.
  pose proof (lookup_Some_lt _ _ _ Hself) as Hlt.
  assert (lookup (h ++ [ObjSection title level []])%list self
          = Some (ObjDocument content)) as Hself'
      by now rewrite lookup_alloc_old.
  destruct (content_append_Document _ self (length h) content Hself')
    as (h' & Happend & Hlen & Hdoc & Hother).
  exists h'. unfold add_section, Section_new, alloc.
  rewrite Hself', Happend. split; [reflexivity|].
  split; [rewrite Hlen, length_app; cbn; lia|].
  split; [|split; [exact Hdoc|]].
  - rewrite Hother by lia. apply lookup_alloc_new.
  - intros l Hne Hl. rewrite (Hother l Hne). now apply lookup_alloc_old.
Qed.

(** Items that render to texts give the list of these texts. *)
Lemma render_items_texts (render_item : loc -> option (Result PyVal))
  (content : list loc) (texts : list string) :
  Forall2 (fun item text => render_item item = Some (Ok (PyStr text)))
    content texts ->
  render_items render_item content = Some (Ok (map PyStr texts)).
Proof.
  induction 1 as [|item text content texts Hitem _ IH]; cbn [render_items].
  - reflexivity.
  - now rewrite Hitem, IH.
Qed.

Lemma render_at_Document
  (depth : nat) (h : store) (self : loc) (content : list loc)
  (texts : list string) :
  lookup h self = Some (ObjDocument content) ->
  Forall2 (fun item text => render_at depth h item = Some (Ok (PyStr text)))
    content texts ->
  render_at (S depth) h self = Some (Ok (PyStr (String.concat LF texts))).
Proof.
  intros Hself Hitems. cbn [render_at]. rewrite Hself.
  rewrite (render_items_texts _ _ _ Hitems). cbn [option_map].
  unfold Document_render. cbn [bind]. now rewrite str_join_map_PyStr.
Qed.

Lemma render_at_empty_Section
  (depth : nat) (h : store) (self : loc) (title : PyVal) :
  lookup h self = Some (ObjSection title (PyInt 1) []) ->
  render_at (S depth) h self = Some (Ok (PyStr ("= " ++ py_str title))).
Proof.
  intros Hself. cbn [render_at]. now rewrite Hself.
Qed.

Lemma render_at_Paragraph
  (depth : nat) (h : store) (self : loc) (text : PyVal) :
  lookup h self = Some (ObjLeaf (Paragraph text)) ->
  render_at (S depth) h self = Some (Ok text).
Proof.
  intros Hself. cbn [render_at]. now rewrite Hself.
Qed.

(** The store after the fluent construction: the document holds the
    section and the paragraph, in that order. *)
Lemma section_then_paragraph_effect (title text : PyVal) (h0 : store) :
  exists doc section paragraph h,
    section_then_paragraph title text h0 = Some (doc, section, paragraph, h)
    /\ lookup h doc = Some (ObjDocument [section; paragraph])
    /\ lookup h section = Some (ObjSection title (PyInt 1) [])
    /\ lookup h paragraph = Some (ObjLeaf (Paragraph text)).
Proof.
  set (h1 := (h0 ++ [ObjDocument []])%list).
  assert (length h1 = S (length h0)) as Hlen1
      by (unfold h1; rewrite length_app; cbn; lia).
  assert (lookup h1 (length h0) = Some (ObjDocument [])) as Hdoc1
      by apply lookup_alloc_new.
  destruct (add_section_effect h1 (length h0) [] title default_level Hdoc1)
    as (h2 & Hadd & Hlen2 & Hsec2 & Hdoc2 & _).
  set (h3 := (h2 ++ [ObjLeaf (Paragraph text)])%list).
  assert (lookup h3 (length h0) = Some (ObjDocument [length h1])) as Hdoc3
      by (unfold h3; rewrite lookup_alloc_old by lia; exact Hdoc2).
  destruct (content_append_Document h3 (length h0) (length h2) _ Hdoc3)
    as (h4 & Happend & Hlen4 & Hdoc4 & Hother4).
  exists (length h0), (length h1), (length h2), h4.
  split; [|split; [exact Hdoc4 | split]].
  - cbv beta iota delta [section_then_paragraph Document_new alloc].
    fold h1. rewrite Hadd. fold h3. now rewrite Happend.
  - rewrite Hother4 by lia. unfold h3.
    rewrite lookup_alloc_old by lia. exact Hsec2.
  - rewrite Hother4 by lia. apply lookup_alloc_new.
Qed.

(** C8: [add_section] with the default level stores a new section of
    level 1 at the end of the content of the document and returns it; a
    document renders to the texts of its items, in their order, joined by
    line feeds and nothing else; so a section added with [add_section] and
    then a paragraph render to the text of the section, a line feed and the
    text of the paragraph. *)
Theorem add_section_then_render :
  (forall (h : store) (self : loc) (content : list loc) (title : PyVal),
      lookup h self = Some (ObjDocument content) ->
      exists h',
        add_section self title default_level h = Some (length h, h')
        /\ lookup h' (length h) = Some (ObjSection title (PyInt 1) [])
        /\ lookup h' self = Some (ObjDocument (content ++ [length h])%list)
        /\ forall l, l <> self -> l < length h -> lookup h' l = lookup h l)
  /\ (forall (depth : nat) (h : store) (self : loc) (content : list loc)
             (texts : list string),
      lookup h self = Some (ObjDocument content) ->
      Forall2 (fun item text =>
                 render_at depth h item = Some (Ok (PyStr text)))
        content texts ->
      render_at (S depth) h self
      = Some (Ok (PyStr (String.concat LF texts))))
  /\ (forall (h0 : store) (title : PyVal) (text : string) (depth : nat),
      exists doc section paragraph h section_text,
        section_then_paragraph title (PyStr text) h0
        = Some (doc, section, paragraph, h)
        /\ render_at (S depth) h section = Some (Ok (PyStr section_text))
        /\ render_at (S depth) h paragraph = Some (Ok (PyStr text))
        /\ render_at (S (S depth)) h doc
           = Some (Ok (PyStr (section_text ++ LF ++ text)))).
Proof.
  split; [|split].
  - intros h self content title Hself.
    destruct (add_section_effect h self content title default_level Hself)
      as (h' & Hadd & _ & Hsection & Hdoc & Hother).
    exists h'. repeat split; assumption.
  - exact render_at_Document.
  - intros h0 title text depth.
    destruct (section_then_paragraph_effect title (PyStr text) h0)
      as (doc & section & paragraph & h & Hbuilt & Hdoc & Hsec & Hpar).
    exists doc, section, paragraph, h, ("= " ++ py_str title).
    pose proof (render_at_empty_Section depth h section title Hsec) as Rsec.
    pose proof (render_at_Paragraph depth h paragraph _ Hpar) as Rpar.
    repeat split; try assumption.
    apply (render_at_Document (S depth) h doc [section; paragraph]
             ["= " ++ py_str title; text] Hdoc).
    repeat constructor; assumption.
Qed.

Lemma add_section_then_render_witness :
  exists h',
    add_section 0 (PyStr "Intro") default_level [ObjDocument []]
    = Some (1, h')
    /\ lookup h' 1 = Some (ObjSection (PyStr "Intro") (PyInt 1) [])
    /\ lookup h' 0 = Some (ObjDocument [1]).
Proof.
  destruct (proj1 add_section_then_render [ObjDocument []] 0 []
              (PyStr "Intro") eq_refl)
    as (h' & Hadd & Hsection & Hdoc & _).
  exists h'. split; [exact Hadd | split; [exact Hsection | exact Hdoc]].
Defined.

(** X14: The section that [add_section] returns is the one the document holds:
    what the caller appends to it afterwards shows when the document is
    rendered. *)
Lemma add_section_fluent
  (h : store) (doc : loc) (title : PyVal) (text : string) (depth : nat) :
  lookup h doc = Some (ObjDocument []) ->
  exists section h1 paragraph h2 h3,
    add_section doc title default_level h = Some (section, h1)
    /\ alloc (ObjLeaf (Paragraph (PyStr text))) h1 = (paragraph, h2)
    /\ content_append section paragraph h2 = Some h3
    /\ render_at (S (S (S depth))) h3 doc
       = Some (Ok (PyStr (("= " ++ py_str title) ++ LF ++ text))).
Proof.
  intros Hdoc.
  pose proof (lookup_Some_lt _ _ _ Hdoc) as Hlt.
  destruct (add_section_effect h doc [] title default_level Hdoc)
    as (h1 & Hadd & Hlen1 & Hsec1 & Hdoc1 & _).
  set (h2 := (h1 ++ [ObjLeaf (Paragraph (PyStr text))])%list).
  assert (lookup h2 (length h)
          = Some (ObjSection title default_level [])) as Hsec2
      by (unfold h2; rewrite lookup_alloc_old by lia; exact Hsec1).
  destruct (content_append_Section h2 (length h) (length h1) _ _ _ Hsec2)
    as (h3 & Happend & Hlen3 & Hsec3 & Hother3).
  exists (length h), h1, (length h1), h2, h3.
  repeat split; try assumption.
  assert (render_at (S depth) h3 (length h1) = Some (Ok (PyStr text)))
    as Rpar.
  { apply render_at_Paragraph. rewrite Hother3 by lia.
    apply lookup_alloc_new. }
  assert (render_at (S (S depth)) h3 (length h)
          = Some (Ok (PyStr (("= " ++ py_str title) ++ LF ++ text))))
    as Rsec.
  { cbn [render_at] in Rpar |- *. rewrite Hsec3.
    cbn [default_level str_mul List.app render_items].
    rewrite Rpar. reflexivity. }
  apply (render_at_Document _ h3 doc [length h]
           [("= " ++ py_str title) ++ LF ++ text]).
  - rewrite Hother3 by lia. unfold h2.
    rewrite lookup_alloc_old by lia. exact Hdoc1.
  - repeat constructor. exact Rsec.
Qed.

(** A section appended to its own content has no text at any depth. *)
Lemma render_at_cyclic (title : PyVal) (depth : nat) :
  render_at depth [ObjSection title (PyInt 1) [0]] 0 = None.
Proof.
  induction depth as [|depth IH]; [reflexivity|].
  cbn [render_at lookup nth_error str_mul render_items].
  now rewrite IH.
Qed.

(** Items that form trees render in the store as the trees do. *)
Lemma render_items_reify
  (reify_item : loc -> option Element)
  (render_item : loc -> option (Result PyVal))
  (content : list loc) (items : list Element) :
  (forall l e, reify_item l = Some e -> render_item l = Some (render e)) ->
  reify_items reify_item content = Some items ->
  render_items render_item content = Some (sequence (map render items)).
Proof.
  intros Hitem. revert items.
  induction content as [|l content IH]; intros items; cbn [reify_items].
  - intros [= <-]. reflexivity.
  - destruct (reify_item l) as [e|] eqn:He; [|discriminate].
    destruct (reify_items reify_item content) as [es|]; [|discriminate].
    intros [= <-]. cbn [render_items map sequence].
    rewrite (Hitem _ _ He), (IH es eq_refl).
    destruct (render e) as [v | x]; reflexivity.
Qed.

(** X16: On the objects that form a tree, rendering in the store is rendering
    the tree: the same text or the same exception. *)
Lemma render_at_reify (depth : nat) (h : store) :
  forall (self : loc) (e : Element),
    reify depth h self = Some e -> render_at depth h self = Some (render e).
Proof.
  induction depth as [|depth IH]; intros self e; cbn [reify render_at].
  - discriminate.
  - destruct (lookup h self) as [[l | title level content | content]|];
      [| | |discriminate].
    + intros [= <-]. reflexivity.
    + destruct (reify_items (reify depth h) content) as [items|] eqn:Hitems;
        [|discriminate].
      intros [= <-]. cbn [render].
      rewrite (render_items_reify _ _ _ _ IH Hitems). cbn [option_map].
      unfold Section_render.
      destruct (str_mul "=" level) as [prefix | x]; reflexivity.
    + destruct (reify_items (reify depth h) content) as [items|] eqn:Hitems;
        [|discriminate].
      intros [= <-]. cbn [render].
      now rewrite (render_items_reify _ _ _ _ IH Hitems).
Qed.

(** * Further properties *)

(** ** Section: the level *)

(** X1: A level that is zero or negative, down to the least index of the
    interpreter (-2^63), gives no marker: the heading is a space and the
    title, as for level zero. *)
Theorem Section_render_nonpositive_level
  (title : PyVal) (n : Z) (content : list Element) :
  (index_min <= n <= 0)%Z ->
  render (Section title (PyInt n) content)
  = render (Section title (PyInt 0) content)
  /\ forall texts,
      Forall2 (fun item text => render item = Ok (PyStr text)) content texts ->
      render (Section title (PyInt n) content)
      = Ok (PyStr (String.concat LF ((" " ++ py_str title) :: texts))).
Proof.
  intros Hn.
  assert (Z.to_nat n = O) as Hnat by lia.
  assert (str_mul "=" (PyInt n) = Ok "") as Hprefix.
  { rewrite str_mul_in_range by (pose proof index_range_bounds; lia).
    now rewrite Hnat. }
  split.
  - cbn [render]. unfold Section_render. now rewrite Hprefix.
  - intros texts Hitems. cbn [render]. unfold Section_render.
    rewrite Hprefix. cbn [bind].
    rewrite (sequence_render_texts _ _ Hitems). cbn [bind str_repeat].
    change (PyStr ?h :: map PyStr texts) with (map PyStr (h :: texts)).
    now rewrite str_join_map_PyStr.
Qed.

Lemma Section_render_nonpositive_level_witness :
  render (Section (PyStr "Intro") (PyInt (-2)) [Elem (Paragraph (PyStr "p"))])
  = Ok (PyStr (" Intro" ++ LF ++ "p")).
Proof.
  destruct (Section_render_nonpositive_level (PyStr "Intro") (-2)
              [Elem (Paragraph (PyStr "p"))]
              ltac:(split; [discriminate | lia])) as [_ Htext].
  exact (Htext ["p"] ltac:(repeat constructor)).
Defined.

(** X2: A level that is no integer raises before any item is rendered: the
    section raises whatever its content holds, even itself. *)
Theorem Section_level_raises_first
  (depth : nat) (h : store) (self : loc) (title level : PyVal)
  (content : list loc) :
  is_int level = false ->
  lookup h self = Some (ObjSection title level content) ->
  render_at (S depth) h self = Some (Raise TypeError)
  /\ forall items : list Element,
      render (Section title level items) = Raise TypeError.
Proof.
  intros Hlevel Hself. split.
  - cbn [render_at]. rewrite Hself.
    destruct level; try discriminate Hlevel; reflexivity.
  - intros items. cbn [render]. unfold Section_render.
    destruct level; try discriminate Hlevel; reflexivity.
Qed.

Lemma Section_level_raises_first_witness :
  render_at 1 [ObjSection (PyStr "Intro") (PyStr "2") [0]] 0
  = Some (Raise TypeError).
Proof.
  exact (proj1 (Section_level_raises_first 0
                  [ObjSection (PyStr "Intro") (PyStr "2") [0]] 0
                  (PyStr "Intro") (PyStr "2") [0] eq_refl eq_refl)).
Defined.

(** ** Table: errors, lines, separators *)


Lemma row_lines_cases (rows : list Row) :
  (forallb is_cells rows = true
   /\ exists lines,
       sequence
         (map (fun row =>
                 cells <- row_iter row ;;
                 Ok ("| " ++ String.concat " | " (map py_str cells))) rows)
       = Ok lines)
  \/ (forallb is_cells rows = false
      /\ sequence
           (map (fun row =>
                   cells <- row_iter row ;;
                   Ok ("| " ++ String.concat " | " (map py_str cells))) rows)
         = Raise TypeError).
Proof.
  induction rows as [|row rows IH]; cbn [forallb map sequence].
  - left. split; [reflexivity | now eexists].
  - destruct row as [cells | | b | z]; cbn [is_cells row_iter bind andb];
      try (right; split; reflexivity).
    destruct IH as [[Hall [lines ->]] | [Hall ->]]; cbn [bind].
    + left. split; [exact Hall | now eexists].
    + right. split; [exact Hall | reflexivity].
Qed.

Lemma Table_render_rows_cells
  (header : list PyVal) (rows : list (list PyVal)) :
  Table_render_rows header (map RowCells rows) = Table_render header rows.
Proof.
  unfold Table_render_rows, Table_render.
  assert (sequence
            (map (fun row =>
                    cells <- row_iter row ;;
                    Ok ("| " ++ String.concat " | " (map py_str cells)))
               (map RowCells rows))
          = Ok (map (fun row => "| " ++ String.concat " | " (map py_str row))
                  rows)) as ->.
  { induction rows as [|row rows IH]; cbn [map sequence row_iter bind];
      [reflexivity | now rewrite IH]. }
  destruct (if list_truthy header then _ else _); reflexivity.
Qed.

(** X3: On a header and rows that are lists, [Table.render] raises exactly
    when a header label is not a string or a row is not a sequence of cells
    but [None], a boolean or an integer, and what it raises is [TypeError];
    the cells go through [str], so that no cell and no length of a row
    makes it raise, while the labels are joined as they are. *)
Theorem Table_render_raises_iff (header : list PyVal) (rows : list Row) :
  (Table_render_rows header rows = Raise TypeError
   <-> forallb is_str header = false \/ forallb is_cells rows = false)
  /\ (forall x, Table_render_rows header rows = Raise x -> x = TypeError)
  /\ (forall cells : list (list PyVal),
        rows = map RowCells cells ->
        Table_render_rows header rows = Table_render header cells
        /\ (Table_render header cells = Raise TypeError
            <-> forallb is_str header = false)).
Proof.
  assert (forall rs : list Row,
             (forallb is_str header = true /\ forallb is_cells rs = true
              /\ exists text, Table_render_rows header rs = Ok (PyStr text))
             \/ ((forallb is_str header = false
                  \/ forallb is_cells rs = false)
                 /\ Table_render_rows header rs = Raise TypeError))
    as Hcases.
  { intros rs. unfold Table_render_rows.
    destruct (as_strs_cases header) as [(labels & -> & Hall) | [Hraise Hall]].
    - rewrite str_join_map_PyStr.
      destruct (row_lines_cases rs) as [[Hrows [lines ->]] | [Hrows ->]].
      + left. split; [exact Hall | split; [exact Hrows|]].
        destruct (list_truthy (map PyStr labels)); eexists; reflexivity.
      + right. split; [now right|].
        destruct (list_truthy (map PyStr labels)); reflexivity.
    - right. split; [now left|].
      unfold str_join. rewrite Hraise.
      destruct header; [discriminate Hraise | reflexivity]. }
  split; [|split].
  - destruct (Hcases rows) as [(Hh & Hr & text & ->) | [Hbad ->]].
    + rewrite Hh, Hr. split; [discriminate | intros [H | H]; discriminate H].
    + split; [intros _; exact Hbad | reflexivity].
  - intros x. destruct (Hcases rows) as [(_ & _ & text & ->) | [_ ->]];
      [discriminate | now intros [= <-]].
  - intros cells ->. split; [apply Table_render_rows_cells|].
    rewrite <- Table_render_rows_cells.
    destruct (Hcases (map RowCells cells))
      as [(Hh & _ & text & ->) | [Hbad ->]].
    + rewrite Hh. split; discriminate.
    + split; [intros _ | reflexivity].
      destruct Hbad as [Hh | Hr]; [exact Hh|].
      exfalso. clear - Hr.
      induction cells as [|row cells IH]; [discriminate Hr | now apply IH].
Qed.

Lemma Table_render_raises_iff_witness :
  Table_render_rows [PyStr "a"] [RowCells [PyInt 1]; RowInt 5]
  = Raise TypeError
  /\ Table_render_rows [PyStr "a"] [RowCells [PyInt 1]]
     = Table_render [PyStr "a"] [[PyInt 1]].
Proof.
  split.
  - apply (proj1 (Table_render_raises_iff [PyStr "a"]
                    [RowCells [PyInt 1]; RowInt 5])).
    now right.
  - apply (proj2 (proj2 (Table_render_raises_iff [PyStr "a"]
                           [RowCells [PyInt 1]])) [[PyInt 1]] eq_refl).
Defined.

Lemma concat_snoc (sep x : string) (lines : list string) :
  lines <> [] ->
  String.concat sep (lines ++ [x]) = String.concat sep lines ++ sep ++ x.
Proof.
  induction lines as [|line lines IH]; intros Hne; [now elim Hne|].
  destruct lines as [|next lines]; [reflexivity|].
  specialize (IH ltac:(discriminate)).
  cbn [List.app] in IH |- *.
  rewrite (concat_cons2 sep line next (lines ++ [x])), IH.
  rewrite (concat_cons2 sep line next lines).
  now rewrite !append_assoc.
Qed.

Lemma newline_free_concat (sep : string) (lines : list string) :
  newline_free sep = true ->
  forallb newline_free lines = true ->
  newline_free (String.concat sep lines) = true.
Proof.
  intros Hsep. induction lines as [|line lines IH]; cbn [forallb].
  - reflexivity.
  - intros H. apply andb_prop in H as [Hline Hlines].
    destruct lines as [|next lines]; [exact Hline|].
    rewrite concat_cons2, !newline_free_append, Hline, Hsep.
    now rewrite IH.
Qed.

(** Lines without a line feed, the last of them not empty, are the lines of
    their join. *)
Lemma text_lines_concat_last (lines : list string) (final : string) :
  forallb newline_free lines = true ->
  newline_free final = true -> final <> "" ->
  text_lines (String.concat LF (lines ++ [final])) = (lines ++ [final])%list.
Proof.
  intros Hlines Hfinal Hne.
  induction lines as [|line lines IH]; cbn [forallb] in Hlines.
  - now apply text_lines_single.
  - apply andb_prop in Hlines as [Hline Hlines].
    change ((line :: lines) ++ [final])%list
      with (line :: (lines ++ [final]))%list.
    destruct (lines ++ [final])%list as [|next more] eqn:Happ.
    + now destruct lines.
    + rewrite concat_cons2, (text_lines_cons _ _ Hline).
      now rewrite IH.
Qed.

Lemma concat_cons_ne (sep x : string) (lines : list string) :
  lines <> [] ->
  String.concat sep (x :: lines) = x ++ sep ++ String.concat sep lines.
Proof.
  destruct lines; [intros Hne; now elim Hne | reflexivity].
Qed.

Lemma concat_marker_body_marker (first : string) (body : list string) :
  body <> [] ->
  String.concat LF (first :: body ++ ["|==="])
  = first ++ LF ++ String.concat LF body ++ LF ++ "|===".
Proof.
  intros Hne. rewrite concat_cons_ne by (destruct body; discriminate).
  now rewrite concat_snoc.
Qed.

Lemma Table_render_as_lines (labels : list string) (rows : list (list PyVal)) :
  Table_render (map PyStr labels) rows
  = Ok (PyStr (String.concat LF (Table_lines labels rows))).
Proof.
  unfold Table_render, Table_lines. rewrite str_join_map_PyStr.
  set (row_line := fun row => "| " ++ String.concat " | " (map py_str row)).
  destruct labels as [|label labels]; destruct rows as [|row rows];
    cbn [map list_truthy bind List.app]; try reflexivity.
  - pose proof (concat_marker_body_marker "|==="
                  (row_line row :: map row_line rows) ltac:(discriminate))
      as Hlines.
    cbn [List.app] in Hlines. rewrite Hlines.
    now rewrite !append_assoc.
  - generalize (String.concat " | " (label :: labels)). intros header_text.
    string_norm. reflexivity.
  - generalize (String.concat " | " (label :: labels)). intros header_text.
    pose proof (concat_marker_body_marker ("| " ++ header_text)
                  (row_line row :: map row_line rows) ltac:(discriminate))
      as Hlines.
    cbn [List.app] in Hlines. rewrite concat_cons2, Hlines.
    now rewrite !append_assoc.
Qed.

Lemma row_lines_free (rows : list (list PyVal)) :
  forallb (fun row => forallb newline_free (map py_str row)) rows = true ->
  forallb newline_free
    (map (fun row => "| " ++ String.concat " | " (map py_str row)) rows)
  = true.
Proof.
  induction rows as [|row rows IH]; cbn [forallb map]; [reflexivity|].
  intros H. apply andb_prop in H as [Hrow Hrows].
  rewrite (IH Hrows), andb_true_r.
  rewrite newline_free_append, newline_free_concat
    by (reflexivity || exact Hrow).
  reflexivity.
Qed.

(** X4: The lines of a rendered table, when no label and no cell has a line
    feed in its text: the marker, the header line if there are labels, one
    line per row (one empty line if there is no row), the marker.  So a
    table without rows has as many lines as a table with one row. *)
Theorem Table_render_lines (labels : list string) (rows : list (list PyVal)) :
  forallb newline_free labels = true ->
  forallb (fun row => forallb newline_free (map py_str row)) rows = true ->
  exists text,
    Table_render (map PyStr labels) rows = Ok (PyStr text)
    /\ text_lines text = Table_lines labels rows
    /\ length (text_lines text)
       = (2 + (if list_truthy labels then 1 else 0)
          + Nat.max 1 (length rows))%nat.
Proof.
  intros Hlabels Hrows.
  exists (String.concat LF (Table_lines labels rows)).
  split; [apply Table_render_as_lines|].
  assert (text_lines (String.concat LF (Table_lines labels rows))
          = Table_lines labels rows) as Hlines.
  { unfold Table_lines. cbv zeta.
    match goal with
    | |- context [("|===" :: List.app ?hs (List.app ?bs ["|==="]))] =>
        change ("|===" :: List.app hs (List.app bs ["|==="]))
          with (List.app ("|===" :: hs) (List.app bs ["|==="]));
        rewrite (app_assoc ("|===" :: hs) bs ["|==="])
    end.
    apply text_lines_concat_last; [|reflexivity | discriminate].
    rewrite forallb_app. apply andb_true_intro. split.
    - destruct labels as [|label labels]; [reflexivity|].
      cbn [forallb]. rewrite andb_true_r.
      change (newline_free "|===") with true. cbn [andb].
      rewrite newline_free_append.
      now rewrite newline_free_concat.
    - destruct rows as [|row rows]; [reflexivity|].
      now apply row_lines_free. }
  split; [exact Hlines|].
  rewrite Hlines. unfold Table_lines. cbv zeta.
  cbn [length]. rewrite !length_app. cbn [length].
  destruct labels, rows; cbn [list_truthy length]; rewrite ?length_map;
    cbn [length]; lia.
Qed.

Lemma Table_render_lines_witness :
  exists text,
    Table_render [PyStr "a"; PyStr "b"] [[PyInt 1]; []; [PyNone; PyInt 2]]
    = Ok (PyStr text)
    /\ text_lines text = ["|==="; "| a | b"; "| 1"; "| "; "| None | 2"; "|==="].
Proof.
  destruct (Table_render_lines ["a"; "b"] [[PyInt 1]; []; [PyNone; PyInt 2]]
              eq_refl eq_refl) as (text & Hrender & Hlines & _).
  exists text. split; [exact Hrender | exact Hlines].
Defined.

(** X5: The cell separator is not escaped: a cell whose text holds the
    separator renders as two cells do. *)
Theorem Table_render_separator_in_cell
  (header : list PyVal) (a b : string) (row : list PyVal)
  (rows : list (list PyVal)) :
  Table_render header ((PyStr (a ++ " | " ++ b) :: row) :: rows)
  = Table_render header ((PyStr a :: PyStr b :: row) :: rows).
Proof.
  unfold Table_render.
  assert ("| " ++ String.concat " | "
                    (map py_str (PyStr (a ++ " | " ++ b) :: row))
          = "| " ++ String.concat " | "
                      (map py_str (PyStr a :: PyStr b :: row)))
    as Hrow.
  { f_equal. cbn [map py_str].
    destruct (map py_str row) as [|cell cells].
    - reflexivity.
    - rewrite !concat_cons2. now rewrite !append_assoc. }
  cbn [map] in Hrow |- *. now rewrite Hrow.
Qed.

(** ** Lists: what the text tells of the items *)

Lemma append_inj_r (p a b : string) : p ++ a = p ++ b -> a = b.
Proof.
  induction p as [|c p IH]; cbn; [trivial|].
  intros [= H]. now apply IH.
Qed.

Lemma map_bullet_inj (bullet : string) (items items' : list PyVal) :
  map (fun item => bullet ++ py_str item) items
  = map (fun item => bullet ++ py_str item) items' ->
  map py_str items = map py_str items'.
Proof.
  revert items'. induction items as [|item items IH]; intros [|item' items'];
    cbn [map]; try discriminate; [reflexivity|].
  intros [= Hhead Htail].
  now rewrite (append_inj_r _ _ _ Hhead), (IH _ Htail).
Qed.

(** X6: When no item has a line feed in its text, the text of a list gives
    back the texts of the items: two lists that render alike have the same
    item texts. *)
Theorem list_render_injective (items items' : list PyVal) :
  forallb newline_free (map py_str items) = true ->
  forallb newline_free (map py_str items') = true ->
  (UnorderedList_render items = UnorderedList_render items' ->
   map py_str items = map py_str items')
  /\ (OrderedList_render items = OrderedList_render items' ->
      map py_str items = map py_str items').
Proof.
  intros Hfree Hfree'.
  split; intros [= Heq]; apply (f_equal text_lines) in Heq;
    rewrite !text_lines_concat in Heq
      by (apply bullet_lines_free; [reflexivity | assumption]).
  - exact (map_bullet_inj "* " _ _ Heq).
  - exact (map_bullet_inj ". " _ _ Heq).
Qed.

Lemma list_render_injective_witness :
  map py_str [PyInt 1; PyStr "tea"] = map py_str [PyStr "1"; PyStr "tea"].
Proof.
  apply (proj1 (list_render_injective [PyInt 1; PyStr "tea"]
                  [PyStr "1"; PyStr "tea"] eq_refl eq_refl)).
  reflexivity.
Defined.

(** X7: Without that condition it does not: item texts are not escaped, and an
    item whose text holds a line feed and the bullet renders as two items
    do. *)
Theorem list_render_item_splits (a b : string) (items : list PyVal) :
  UnorderedList_render (PyStr (a ++ LF ++ "* " ++ b) :: items)
  = UnorderedList_render (PyStr a :: PyStr b :: items)
  /\ OrderedList_render (PyStr (a ++ LF ++ ". " ++ b) :: items)
     = OrderedList_render (PyStr a :: PyStr b :: items).
Proof.
  unfold UnorderedList_render, OrderedList_render. cbn [map py_str].
  split; do 2 f_equal.
  - destruct (map (fun item => "* " ++ py_str item) items) as [|line lines];
      [|rewrite !concat_cons2]; string_norm; reflexivity.
  - destruct (map (fun item => ". " ++ py_str item) items) as [|line lines];
      [|rewrite !concat_cons2]; string_norm; reflexivity.
Qed.

(** ** Blockquote: the value that is not given *)

(** X8: When only the author or only the source is given and the other is
    [None], the attribution line holds the word None in its place. *)
Theorem Blockquote_render_None_slot (text v : PyVal) :
  truthy v = true ->
  let block := "____" ++ LF ++ py_str text ++ LF ++ "____" in
  Blockquote_render text PyNone v
  = Ok (PyStr ("[quote, None, " ++ py_str v ++ "]" ++ LF ++ block))
  /\ Blockquote_render text v PyNone
     = Ok (PyStr ("[quote, " ++ py_str v ++ ", None]" ++ LF ++ block)).
Proof.
  intros Hv. cbv zeta. unfold Blockquote_render, py_or.
  cbn [truthy]. rewrite !Hv. cbn [py_str].
  split; string_norm; reflexivity.
Qed.

Lemma Blockquote_render_None_slot_witness :
  Blockquote_render (PyStr "To be.") PyNone (PyStr "Hamlet")
  = Ok (PyStr ("[quote, None, Hamlet]" ++ LF ++ "____" ++ LF ++ "To be."
               ++ LF ++ "____")).
Proof.
  exact (proj1 (Blockquote_render_None_slot (PyStr "To be.")
                  (PyStr "Hamlet") eq_refl)).
Defined.

(** ** Containers: how they compose *)

Lemma sequence_app {A : Type} (a b : list (Result A)) :
  sequence (a ++ b)
  = (x <- sequence a ;; y <- sequence b ;; Ok (x ++ y)%list).
Proof.
  induction a as [|r a IH]; cbn [List.app sequence bind].
  - destruct (sequence b); reflexivity.
  - destruct r as [v | e]; cbn [bind]; [|reflexivity].
    rewrite IH. destruct (sequence a) as [x | e]; cbn [bind]; [|reflexivity].
    destruct (sequence b); reflexivity.
Qed.

Lemma as_strs_app (a b : list PyVal) :
  as_strs (a ++ b) = (x <- as_strs a ;; y <- as_strs b ;; Ok (x ++ y)%list).
Proof.
  induction a as [|v a IH]; cbn [List.app as_strs bind].
  - destruct (as_strs b); reflexivity.
  - destruct v; try reflexivity.
    rewrite IH. destruct (as_strs a) as [x | e]; cbn [bind]; [|reflexivity].
    destruct (as_strs b); reflexivity.
Qed.

Lemma as_strs_length (items : list PyVal) (texts : list string) :
  as_strs items = Ok texts -> length texts = length items.
Proof.
  revert texts. induction items as [|v items IH]; intros texts; cbn [as_strs].
  - now intros [= <-].
  - destruct v; try discriminate.
    destruct (as_strs items) as [ts | e]; [|discriminate].
    intros [= <-]. cbn [length]. now rewrite (IH ts).
Qed.

Lemma sequence_length {A : Type} (rs : list (Result A)) (vs : list A) :
  sequence rs = Ok vs -> length vs = length rs.
Proof.
  revert vs. induction rs as [|r rs IH]; intros vs; cbn [sequence].
  - now intros [= <-].
  - destruct r as [v | e]; [|discriminate]. cbn [bind].
    destruct (sequence rs) as [l | e]; [|discriminate].
    intros [= <-]. cbn [length]. now rewrite (IH l).
Qed.

Lemma concat_app (sep : string) (a b : list string) :
  a <> [] -> b <> [] ->
  String.concat sep (a ++ b)
  = String.concat sep a ++ sep ++ String.concat sep b.
Proof.
  intros Ha Hb. induction a as [|x a IH]; [now elim Ha|].
  destruct a as [|y a].
  - cbn [List.app]. now apply concat_cons_ne.
  - specialize (IH ltac:(discriminate)). cbn [List.app] in IH |- *.
    rewrite (concat_cons2 sep x y (a ++ b)), IH.
    rewrite (concat_cons2 sep x y a). now rewrite !append_assoc.
Qed.

(** X9: A document of paragraphs renders to their texts joined by line feeds;
    when each text is one line and not empty, the lines of the document are
    the texts of the paragraphs. *)
Theorem Document_render_paragraphs (texts : list string) :
  render (Document (map (fun text => Elem (Paragraph (PyStr text))) texts))
  = Ok (PyStr (String.concat LF texts))
  /\ (Forall (fun text => newline_free text = true /\ text <> "") texts ->
      text_lines (String.concat LF texts) = texts).
Proof.
  split; [|apply text_lines_concat].
  apply Document_render_join.
  induction texts as [|text texts IH]; constructor; [reflexivity | exact IH].
Qed.

Lemma Document_render_paragraphs_witness :
  text_lines (String.concat LF ["one"; "two"]) = ["one"; "two"].
Proof.
  apply (proj2 (Document_render_paragraphs ["one"; "two"])).
  repeat constructor; discriminate.
Defined.

(** X10: A section renders as an empty section followed by its items: in the
    text the items of a section are not told from what follows it. *)
Theorem Section_render_as_siblings
  (title level : PyVal) (content : list Element) :
  render (Section title level content)
  = render (Document (Section title level [] :: content)).
Proof.
  cbn [render map sequence]. unfold Section_render, Document_render.
  destruct (str_mul "=" level) as [prefix | x]; cbn [bind]; [|reflexivity].
  unfold str_join. cbn [as_strs bind String.concat].
  destruct (sequence (map render content)) as [items | x]; reflexivity.
Qed.

Lemma Document_render_nested_cases (inner rest : list Element) :
  inner <> [] ->
  render (Document (Document inner :: rest))
  = render (Document (inner ++ rest))
  \/ exists x y,
      render (Document inner) = Raise x
      /\ render (Document (Document inner :: rest)) = Raise x
      /\ render (Document (inner ++ rest)) = Raise y.
Proof.
  intros Hinner. cbn [render map sequence].
  rewrite map_app, sequence_app. unfold Document_render.
  destruct (sequence (map render inner)) as [vi | x] eqn:Hvi; cbn [bind];
    [|now left].
  unfold str_join.
  destruct (as_strs vi) as [ti | x] eqn:Hti; cbn [bind].
  - left.
    destruct (sequence (map render rest)) as [vr | y]; cbn [bind];
      [|reflexivity].
    rewrite as_strs_app, Hti. cbn [as_strs bind].
    destruct (as_strs vr) as [tr | y]; cbn [bind]; [|reflexivity].
    do 2 f_equal.
    assert (ti <> []) as Hne.
    { intros ->. apply as_strs_length in Hti.
      apply sequence_length in Hvi. rewrite length_map in Hvi.
      destruct inner; [now elim Hinner | cbn in *; lia]. }
    destruct tr as [|t tr].
    + now rewrite app_nil_r.
    + rewrite concat_cons_ne by discriminate.
      now rewrite concat_app by (assumption || discriminate).
  - right. exists x.
    destruct (sequence (map render rest)) as [vr | y]; cbn [bind].
    + exists x. rewrite as_strs_app, Hti. now repeat split.
    + exists y. now repeat split.
Qed.

Lemma max_height_app (a b : list Element) :
  fold_right Nat.max O (map height (a ++ b))
  = Nat.max (fold_right Nat.max O (map height a))
      (fold_right Nat.max O (map height b)).
Proof.
  induction a as [|e a IH]; cbn [List.app map fold_right]; [reflexivity|].
  rewrite IH. lia.
Qed.

(** X11: Where the call stack admits the nesting, a document held first in
    a document, when it has items, renders to a text exactly when its items
    would in its place, and to the same text; the two raise together, and
    whenever the inner document itself renders they give the same result,
    text or exception. *)
Theorem Document_render_nested
  (limit : nat) (inner rest : list Element) :
  inner <> [] ->
  height (Document (Document inner :: rest)) <= limit ->
  (forall v, render_within limit (Document (Document inner :: rest)) = Ok v
             <-> render_within limit (Document (inner ++ rest)) = Ok v)
  /\ ((exists x,
         render_within limit (Document (Document inner :: rest)) = Raise x)
      <-> (exists y,
             render_within limit (Document (inner ++ rest)) = Raise y))
  /\ ((exists text, render_within limit (Document inner) = Ok text) ->
      render_within limit (Document (Document inner :: rest))
      = render_within limit (Document (inner ++ rest))).
Proof.
  intros Hinner Hlimit.
  assert (height (Document (inner ++ rest)) <= limit
          /\ height (Document inner) <= limit) as [Hflat Hin].
  { cbn [height map fold_right] in Hlimit |- *.
    rewrite max_height_app. lia. }
  rewrite !render_within_height by assumption.
  destruct (Document_render_nested_cases inner rest Hinner)
    as [Heq | (x & y & Hinnerx & Hnested & Hflatx)].
  - rewrite Heq. repeat split; trivial.
  - rewrite Hnested, Hflatx, Hinnerx. repeat split;
      try discriminate; try (intros _; eexists; reflexivity).
    intros [text Htext]. discriminate Htext.
Qed.

Lemma Document_render_nested_witness :
  render_within 3
    (Document
       [Document [Elem (Paragraph (PyStr "a")); Elem HorizontalLine];
        Elem (Paragraph (PyStr "b"))])
  = render_within 3
      (Document [Elem (Paragraph (PyStr "a")); Elem HorizontalLine;
                 Elem (Paragraph (PyStr "b"))]).
Proof.
  apply (Document_render_nested 3
           [Elem (Paragraph (PyStr "a")); Elem HorizontalLine]
           [Elem (Paragraph (PyStr "b"))]).
  - discriminate.
  - cbn. lia.
  - eexists. reflexivity.
Defined.








(** ** Objects: sections added in turn, shared sections, cycles *)

Lemma render_at_empty_Section_level
  (depth : nat) (h : store) (self : loc) (title : PyVal) (n : Z) :
  in_index_range n = true ->
  lookup h self = Some (ObjSection title (PyInt n) []) ->
  render_at (S depth) h self
  = Some (Ok (PyStr (str_repeat "=" (Z.to_nat n) ++ " " ++ py_str title))).
Proof.
  intros Hn Hself. cbn [render_at]. rewrite Hself.
  unfold Section_render. cbn [str_mul]. now rewrite Hn.
Qed.

(** What holds between calls of [add_section] on a document that started
    empty: its items are the sections added so far, each still empty. *)
Lemma add_sections_effect (doc : loc) (sections : list (PyVal * Z)) :
  forall (h : store) (items : list loc) (added : list (PyVal * Z)),
    lookup h doc = Some (ObjDocument items) ->
    Forall2 (fun item s =>
               lookup h item = Some (ObjSection (fst s) (PyInt (snd s)) [])
               /\ item <> doc /\ item < length h) items added ->
    exists returned h',
      add_sections doc (map (fun s => (fst s, PyInt (snd s))) sections) h
      = Some (returned, h')
      /\ returned = seq (length h) (length sections)
      /\ lookup h' doc = Some (ObjDocument (items ++ returned)%list)
      /\ Forall2 (fun item s =>
                    lookup h' item
                    = Some (ObjSection (fst s) (PyInt (snd s)) []))
           (items ++ returned)%list (added ++ sections)%list.
Proof.
  induction sections as [|[title n] sections IH];
    intros h items added Hdoc Hitems.
  - exists [], h. cbn [map add_sections length seq].
    rewrite !app_nil_r. repeat split; try assumption.
    eapply Forall2_impl; [|exact Hitems]. now intros item s (Hitem & _).
  - pose proof (lookup_Some_lt _ _ _ Hdoc) as Hlt.
    destruct (add_section_effect h doc items title (PyInt n) Hdoc)
      as (h1 & Hadd & Hlen1 & Hnew & Hdoc1 & Hother).
    assert (Forall2 (fun item s =>
               lookup h1 item = Some (ObjSection (fst s) (PyInt (snd s)) [])
               /\ item <> doc /\ item < length h1)
              (items ++ [length h])%list (added ++ [(title, n)])%list)
      as Hitems1.
    { apply Forall2_app.
      - eapply Forall2_impl; [|exact Hitems].
        intros item s (Hitem & Hne & Hin).
        rewrite (Hother item Hne Hin). repeat split; [assumption.. | lia].
      - constructor; [|constructor].
        repeat split; [exact Hnew | lia | lia]. }
    destruct (IH h1 _ _ Hdoc1 Hitems1)
      as (returned & h' & Hrest & Hreturned & Hdoc' & Hall).
    exists (length h :: returned), h'.
    cbn [map add_sections fst snd]. rewrite Hadd, Hrest.
    rewrite <- !app_assoc in *. cbn [List.app] in *.
    repeat split; try assumption.
    cbn [length seq]. now rewrite Hreturned, Hlen1.
Qed.

(** X13: Sections added one after the other to a new document, with
    levels of the index range, are its items, in the order of the calls,
    and the document renders to their headings, one per line; with no call
    it renders to the empty text. *)
Theorem add_sections_render
  (h : store) (doc : loc) (sections : list (PyVal * Z)) (depth : nat) :
  forallb (fun s => in_index_range (snd s)) sections = true ->
  lookup h doc = Some (ObjDocument []) ->
  exists returned h',
    add_sections doc (map (fun s => (fst s, PyInt (snd s))) sections) h
    = Some (returned, h')
    /\ returned = seq (length h) (length sections)
    /\ lookup h' doc = Some (ObjDocument returned)
    /\ render_at (S (S depth)) h' doc
       = Some (Ok (PyStr (String.concat LF
                            (map (fun s => str_repeat "=" (Z.to_nat (snd s))
                                           ++ " " ++ py_str (fst s))
                               sections)))).
Proof.
  intros Hrange Hdoc.
  destruct (add_sections_effect doc sections h [] [] Hdoc (Forall2_nil _))
    as (returned & h' & Hadd & Hreturned & Hdoc' & Hall).
  cbn [List.app] in Hdoc', Hall.
  exists returned, h'. repeat split; try assumption.
  apply (render_at_Document _ _ _ _ _ Hdoc').
  clear - Hall Hrange. induction Hall as [|item s items ss Hitem _ IH];
    cbn [map forallb] in *; constructor;
    apply andb_prop in Hrange as [Hs Hss]; [|now apply IH].
  now apply render_at_empty_Section_level.
Qed.

Lemma add_sections_render_witness :
  exists returned h',
    add_sections 0 [(PyStr "One", PyInt 1); (PyStr "Two", PyInt 2)]
      [ObjDocument []]
    = Some (returned, h')
    /\ returned = [1; 2]
    /\ render_at 2 h' 0 = Some (Ok (PyStr ("= One" ++ LF ++ "== Two"))).
Proof.
  destruct (add_sections_render [ObjDocument []] 0
              [(PyStr "One", 1%Z); (PyStr "Two", 2%Z)] 0 eq_refl eq_refl)
    as (returned & h' & Hadd & Hreturned & _ & Hrender).
  exists returned, h'.
  split; [exact Hadd | split; [exact Hreturned | exact Hrender]].
Defined.

Lemma add_section_fluent_witness :
  exists section h1 paragraph h2 h3,
    add_section 0 (PyStr "Intro") default_level [ObjDocument []]
    = Some (section, h1)
    /\ alloc (ObjLeaf (Paragraph (PyStr "Hello."))) h1 = (paragraph, h2)
    /\ content_append section paragraph h2 = Some h3
    /\ render_at 3 h3 0
       = Some (Ok (PyStr (("= " ++ py_str (PyStr "Intro")) ++ LF ++ "Hello."))).
Proof.
  exact (add_section_fluent [ObjDocument []] 0 (PyStr "Intro") "Hello." 0
           eq_refl).
Defined.

Lemma render_at_reify_witness :
  render_at 3
    [ObjDocument [1; 2]; ObjSection (PyStr "Intro") (PyInt 1) [3];
     ObjLeaf HorizontalLine; ObjLeaf (Paragraph (PyStr "Hello."))] 0
  = Some (render (Document [Section (PyStr "Intro") (PyInt 1)
                              [Elem (Paragraph (PyStr "Hello."))];
                            Elem HorizontalLine])).
Proof.
  apply render_at_reify. reflexivity.
Defined.

Lemma render_items_Ok (render_item : loc -> option (Result PyVal))
  (content : list loc) (values : list PyVal) (item : loc) :
  render_items render_item content = Some (Ok values) ->
  In item content -> exists v, render_item item = Some (Ok v).
Proof.
  revert values. induction content as [|first content IH]; intros values;
    cbn [render_items In]; [intros _ []|].
  destruct (render_item first) as [[v | e]|] eqn:Hfirst; try discriminate.
  destruct (render_items render_item content) as [[vs | e]|];
    try discriminate.
  intros _ [<- | Hin]; [now exists v | now apply (IH vs)].
Qed.

Lemma render_at_Ok_holds (depth : nat) (h : store) (a b : loc) (v : PyVal) :
  render_at (S depth) h a = Some (Ok v) -> holds h a b ->
  exists w, render_at depth h b = Some (Ok w).
Proof.
  intros Hrender (o & Hlookup & Hin). cbn [render_at] in Hrender.
  unfold Store.lookup in Hlookup. fold (lookup h a) in Hlookup.
  rewrite Hlookup in Hrender.
  destruct o as [l | title level content | content]; cbn [content_of] in Hin.
  - destruct Hin.
  - destruct (str_mul "=" level) as [prefix | e] eqn:Hprefix;
      [|discriminate].
    destruct (render_items (render_at depth h) content) as [[vs | e]|]
      eqn:Hitems.
    + exact (render_items_Ok _ _ _ _ Hitems Hin).
    + cbn [option_map] in Hrender. unfold Section_render in Hrender.
      rewrite Hprefix in Hrender. discriminate Hrender.
    + discriminate Hrender.
  - destruct (render_items (render_at depth h) content) as [[vs | e]|]
      eqn:Hitems.
    + exact (render_items_Ok _ _ _ _ Hitems Hin).
    + discriminate Hrender.
    + discriminate Hrender.
Qed.

(** X15: An element that is reached from itself through contents, as a section
    appended to its own content or to the content of one of its items,
    renders to no value at any depth. *)
Theorem render_at_cycle (h : store) (self : loc) :
  clos_trans loc (holds h) self self ->
  forall depth v, render_at depth h self <> Some (Ok v).
Proof.
  intros Hcycle depth. revert self Hcycle.
  induction depth as [|depth IH]; intros self Hcycle v; [discriminate|].
  intros Hrender.
  apply clos_trans_t1n in Hcycle.
  inversion Hcycle as [? Hstep | next ? Hstep Hback]; subst.
  - destruct (render_at_Ok_holds _ _ _ _ _ Hrender Hstep) as [w Hw].
    apply (IH self (t_step _ _ _ _ Hstep) w Hw).
  - destruct (render_at_Ok_holds _ _ _ _ _ Hrender Hstep) as [w Hw].
    apply clos_t1n_trans in Hback.
    apply (IH next (t_trans _ _ _ _ _ Hback (t_step _ _ _ _ Hstep)) w Hw).
Qed.

Lemma render_at_cycle_witness :
  let h := [ObjSection (PyStr "A") (PyInt 1) [1];
            ObjSection (PyStr "B") (PyInt 2) [0]] in
  render_at 5 h 0 = None \/ exists x, render_at 5 h 0 = Some (Raise x).
Proof.
  intros h.
  assert (clos_trans loc (holds h) 0 0) as Hcycle.
  { apply t_trans with (y := 1); apply t_step; eexists;
      (split; [reflexivity | now left]). }
  pose proof (render_at_cycle h 0 Hcycle 5) as Hnever.
  destruct (render_at 5 h 0) as [[v | x]|].
  - now elim (Hnever v).
  - right. now exists x.
  - now left.
Defined.

Lemma render_items_ext (f g : loc -> option (Result PyVal))
  (content : list loc) :
  (forall item, In item content -> f item = g item) ->
  render_items f content = render_items g content.
Proof.
  induction content as [|item content IH]; intros Hext; [reflexivity|].
  cbn [render_items]. rewrite (Hext item) by now left.
  rewrite IH by (intros i Hi; apply Hext; now right). reflexivity.
Qed.

(** X17: [add_section] changes the rendering of the document and of what holds
    the document, and of nothing else: an element from which the document
    is not reached renders as before. *)
Theorem add_section_frame
  (h h' : store) (doc section : loc) (content : list loc)
  (title level : PyVal) :
  closed h ->
  lookup h doc = Some (ObjDocument content) ->
  add_section doc title level h = Some (section, h') ->
  forall (depth : nat) (x : loc),
    x < length h ->
    ~ clos_refl_trans loc (holds h) x doc ->
    render_at depth h' x = render_at depth h x.
Proof.
  intros Hclosed Hdoc Hadd.
  destruct (add_section_effect h doc content title level Hdoc)
    as (h1 & Hadd1 & _ & _ & _ & Hother).
  rewrite Hadd in Hadd1. injection Hadd1 as _ <-.
  induction depth as [|depth IH]; intros x Hx Hfar; [reflexivity|].
  assert (x <> doc) as Hne by (intros ->; apply Hfar, rt_refl).
  cbn [render_at]. rewrite (Hother x Hne Hx).
  destruct (lookup h x) as [o|] eqn:Hlookup; [|reflexivity].
  assert (forall item, In item (content_of o) ->
                       render_at depth h' item = render_at depth h item)
    as Hitems.
  { intros item Hin.
    assert (holds h x item) as Hholds by (exists o; now split).
    apply IH; [now apply (Hclosed x)|].
    intros Hreach. apply Hfar.
    eapply rt_trans; [apply rt_step; exact Hholds | exact Hreach]. }
  destruct o as [l | t lv items | items]; cbn [content_of] in Hitems.
  - reflexivity.
  - now rewrite (render_items_ext _ _ _ Hitems).
  - now rewrite (render_items_ext _ _ _ Hitems).
Qed.

Lemma add_section_frame_witness :
  exists section h',
    add_section 0 (PyStr "New") default_level
      [ObjDocument []; ObjSection (PyStr "Old") (PyInt 1) [2];
       ObjLeaf HorizontalLine]
    = Some (section, h')
    /\ render_at 2 h' 1 = Some (Ok (PyStr ("= Old" ++ LF ++ "----"))).
Proof.
  set (h := [ObjDocument []; ObjSection (PyStr "Old") (PyInt 1) [2];
             ObjLeaf HorizontalLine]).
  destruct (add_section 0 (PyStr "New") default_level h)
    as [[section h']|] eqn:Hadd; [|discriminate Hadd].
  exists section, h'. split; [reflexivity|].
  assert (closed h) as Hclosed.
  { intros a b (o & Hlookup & Hin). unfold Store.lookup, h in Hlookup.
    destruct a as [|[|[|a]]]; cbn in Hlookup;
      [| | |destruct a; discriminate Hlookup];
      injection Hlookup as <-; cbn in Hin; try contradiction.
    destruct Hin as [<- | []]. cbn. lia. }
  assert (~ clos_refl_trans loc (holds h) 1 0) as Hfar.
  { assert (forall z, clos_refl_trans loc (holds h) 1 z -> z = 1 \/ z = 2)
      as Hnear.
    { intros z Hreach.
      induction Hreach as [|y z _ IHy (o & Hlookup & Hin)]
        using clos_refl_trans_ind_left; [now left|].
      unfold Store.lookup, h in Hlookup.
      destruct IHy as [-> | ->]; cbn in Hlookup; injection Hlookup as <-;
        cbn in Hin; [destruct Hin as [<- | []]; now right | contradiction]. }
    intros Hreach. destruct (Hnear 0 Hreach) as [H | H]; discriminate H. }
  rewrite (add_section_frame h h' 0 section [] (PyStr "New") default_level
             Hclosed eq_refl Hadd 2 1 ltac:(cbn; lia) Hfar).
  reflexivity.
Defined.
